(** * Eufy desktop monitor: event handling, health tracking, alert gate

    A shallow embedding of the two programs of the repository,

    - [eufy_desktop_gui.py]: [Notifier], [IncidentLog], [WSClient],
      [MonitorLogic] (module [Gui] below), and
    - [eufy_monitor_ws.py]: [Notifier], [IncidentLog], [EufyClient],
      [EufyMonitor] (module [Ws] below),

    and the properties of their event handling.

    Conventions of the embedding.

    - A parsed message is a [json] value (what [json.loads] returns).
      Numbers are integers (fractional numbers are left out); a JSON object
      lists each key once.
    - [datetime.datetime.now()] and [time.time()] are an integer number of
      seconds.  One call of a handler is given one reading [now] of the
      clock: the successive readings inside a single call are taken to be
      the same instant.
    - Strings built with f-strings, [str()] and [json.dumps] are kept as the
      list of their parts ([piece]); the builtin renderings are not
      re-implemented.
    - The collaborators the handlers call ([gui_sink], [notifier.show],
      [log.add]) are recorded, call by call and in order, in the [out]
      component of the state.  [log.add] is the only one of them that can
      raise; the environment says for which records it does. *)

From Stdlib Require Import ZArith String Ascii List Bool Lia.
From stdpp Require Import base option countable gmap strings.
Import ListNotations.

Local Open Scope Z_scope.
Local Open Scope string_scope.
Local Open Scope list_scope.

(** ** JSON values and the Python operations the handlers apply to them *)

#[local] Set Warnings "-register-all".

Inductive json : Type :=
| JNull
| JBool (b : bool)
| JNum (n : Z)
| JStr (s : string)
| JArr (items : list json)
| JObj (fields : list (string * json)).

(** [bool(v)]: Python truthiness. *)
Definition truthy (v : json) : bool :=
  match v with
  | JNull => false
  | JBool b => b
  | JNum n => negb (n =? 0)%Z
  | JStr s => negb (String.eqb s "")
  | JArr items => match items with [] => false | _ => true end
  | JObj fields => match fields with [] => false | _ => true end
  end.

(** [a or b] (both operands are plain lookups here, so evaluating [b]
    eagerly changes nothing). *)
Definition por (a b : json) : json := if truthy a then a else b.

(** [d.get(k)] on a dict given by its items. *)
Fixpoint assoc (k : string) (fields : list (string * json)) : option json :=
  match fields with
  | [] => None
  | (k', v) :: rest => if String.eqb k k' then Some v else assoc k rest
  end.

Definition dict_get (fields : list (string * json)) (k : string) : json :=
  match assoc k fields with Some v => v | None => JNull end.

(** [v in ("a", "b", ...)]: only a string equal to one of them is a member. *)
Definition in_strs (v : json) (l : list string) : bool :=
  match v with
  | JStr s => existsb (String.eqb s) l
  | _ => false
  end.

(** [s.lower()].  Letters outside ASCII are left alone: the only use of the
    result is a membership test in lists of ASCII words without the letter
    k, on which this agrees with Python's Unicode lowering. *)
Definition lower_ascii (c : ascii) : ascii :=
  let n := nat_of_ascii c in
  if ((65 <=? n) && (n <=? 90))%nat then ascii_of_nat (n + 32) else c.

Fixpoint lower (s : string) : string :=
  match s with
  | EmptyString => EmptyString
  | String c rest => String (lower_ascii c) (lower rest)
  end.

(** Dictionary keys.  [None], booleans, integers and strings are hashable,
    and [True == 1], [False == 0] as keys; lists and dicts are not hashable. *)
Inductive hkey : Type :=
| KNone
| KInt (n : Z)
| KStr (s : string).

Definition to_key (v : json) : option hkey :=
  match v with
  | JNull => Some KNone
  | JBool b => Some (KInt (if b then 1 else 0))
  | JNum n => Some (KInt n)
  | JStr s => Some (KStr s)
  | JArr _ | JObj _ => None
  end.

#[global] Instance hkey_eq_dec : EqDecision hkey.
Proof. solve_decision. Defined.

#[global] Instance hkey_countable : Countable hkey.
Proof.
  refine (inj_countable'
    (fun k => match k with
              | KNone => inl tt
              | KInt n => inr (inl n)
              | KStr s => inr (inr s)
              end)
    (fun x => match x with
              | inl _ => KNone
              | inr (inl n) => KInt n
              | inr (inr s) => KStr s
              end) _).
  intros []; reflexivity.
Defined.

(** ** Texts, incident records and the calls made to the collaborators *)

(** The parts of an f-string: a literal, [str(v)] of a value, [json.dumps(v)]
    and [human_ts()] read at a given instant. *)
Inductive piece : Type :=
| Lit (s : string)
| Fmt (v : json)
| Dumps (v : json)
| Stamp (t : Z).

(** A value handed to a collaborator: a JSON value as it was read, a built
    string, or a built string cut to its first [n] characters ([s[:n]]). *)
Inductive pyval : Type :=
| Val (v : json)
| Text (parts : list piece)
| Prefix (n : nat) (parts : list piece).

(** A row of the [incidents] table: [log.add(source, type_, title, details)]
    at instant [ts]. *)
Record incident : Type := Incident {
  ts : Z;
  source : pyval;
  kind : string;
  title : pyval;
  details : pyval
}.

Inductive effect : Type :=
| GuiConn (payload : json)
| GuiDevice (sn name : json) (online : option bool) (last_event : option pyval)
| GuiLog (line : pyval)
| Show (title msg key : pyval)
| LogAdd (row : incident).

(** The environment of a handler: the configured grace period
    ([cfg["health"]["offline_grace_seconds"]]) and the incident database,
    which accepts a row or makes [log.add] raise. *)
Record env : Type := Env {
  offline_grace_seconds : Z;
  log_accepts : incident -> bool
}.

(** A call of [log.add] with a record the database rejects. *)
Definition rejected (e : env) (x : effect) : bool :=
  match x with
  | LogAdd row => negb (log_accepts e row)
  | _ => false
  end.

(** ** Exceptions and the state-and-exception monad of the handlers *)

Inductive exn : Type :=
| AttributeError
| TypeError
| DatabaseError.

Inductive result (A : Type) : Type :=
| Ok (a : A)
| Raise (e : exn).
Arguments Ok {A} a.
Arguments Raise {A} e.

Definition M (S A : Type) : Type := S -> result A * S.

Definition ret {S A} (a : A) : M S A := fun s => (Ok a, s).
Definition raise {S A} (e : exn) : M S A := fun s => (Raise e, s).
Definition bind {S A B} (m : M S A) (k : A -> M S B) : M S B :=
  fun s => match m s with
           | (Ok a, s') => k a s'
           | (Raise e, s') => (Raise e, s')
           end.
Definition modify {S} (f : S -> S) : M S unit := fun s => (Ok tt, f s).
Definition gets {S A} (f : S -> A) : M S A := fun s => (Ok (f s), s).

Declare Scope py_scope.
Delimit Scope py_scope with py.
Notation "'let*' x ':=' m 'in' k" := (bind m (fun x => k))
  (at level 10, x name, m at level 100, k at level 200) : py_scope.
Notation "m ';;' k" := (bind m (fun _ => k))
  (at level 100, k at level 200, right associativity) : py_scope.
Definition when {S} (b : bool) (m : M S unit) : M S unit := if b then m else ret tt.

(** A computation that lets a failure of [log.add] out: the calls it makes
    are added after the ones made before, and if a record the database
    rejects is among them it ends raising [DatabaseError].  ([outS] reads
    the calls made off the state.) *)
Definition propagates {S A} (outS : S -> list effect) (e : env) (m : M S A) : Prop :=
  forall s, exists new,
    outS (snd (m s)) = outS s ++ new /\
    (existsb (rejected e) new = true -> fst (m s) = Raise DatabaseError).

(** [v.get(...)] needs a dict: anything else has no attribute [get]. *)
Definition as_dict {S} (v : json) : M S (list (string * json)) :=
  match v with
  | JObj fields => ret fields
  | _ => raise AttributeError
  end.

(** Using [v] as a dictionary key needs a hashable value. *)
Definition as_key {S} (v : json) : M S hkey :=
  match to_key v with
  | Some k => ret k
  | None => raise TypeError
  end.

(** [for x in l: body(x)] over the items of a list. *)
Fixpoint for_each {S A} (body : A -> M S unit) (l : list A) : M S unit :=
  match l with
  | [] => ret tt
  | x :: rest => (body x ;; for_each body rest)%py
  end.

(** The recognised message kinds. *)
Definition snapshot_kinds : list string := ["devices"; "stations"].
Definition update_kinds : list string := ["device"; "device update"; "property changed"].
Definition alert_kinds : list string := ["event"; "station event"; "device event"].
Definition error_kinds : list string := ["error"; "station error"; "device error"].
Definition online_states : list string := ["online"; "connected"].

(** The online hint of an update: [props.get("online")] when it is a
    boolean, else whether [props.get("state")] is "online" or "connected". *)
Definition online_hint (props : list (string * json)) : bool :=
  match dict_get props "online" with
  | JBool b => b
  | _ => in_strs (dict_get props "state") online_states
  end.

(** ** The alert gate: [Notifier] (the same in both programs) *)

Module Notifier.

(** [self.cooldown] and [self._last] ([self.last] in the headless program). *)
Record t : Type := Make {
  cooldown : Z;
  last : gmap string Z
}.

Definition init (cooldown : Z) : t := Make cooldown ∅.

(** A key counts as given when it is truthy: [None] (the default) and the
    empty string are not. *)
Definition key_given (key : option string) : option string :=
  match key with
  | Some k => if String.eqb k "" then None else Some k
  | None => None
  end.

(** [show(title, msg, key)] at clock reading [now]: the toast handed to
    [notification.notify] (whose own failure is swallowed), or [None] when
    the call returns early, and the notifier afterwards.  (The calls the
    handlers make to it are the [Show] entries of their [out].) *)
Definition show (n : t) (now : Z) (title msg : string) (key : option string)
  : option (string * string) * t :=
  match key_given key with
  | Some k =>
      match last n !! k with
      | Some fired =>
          if (now - fired <? cooldown n)%Z then (None, n)
          else (Some (title, msg), Make (cooldown n) (<[k := now]> (last n)))
      | None => (Some (title, msg), Make (cooldown n) (<[k := now]> (last n)))
      end
  | None => (Some (title, msg), n)
  end.

(** Whether a call of [show] went on to notify. *)
Definition fired (r : option (string * string) * t) : bool :=
  match fst r with Some _ => true | None => false end.

(** Two calls with the same key, at [t1] and then at [t2]: which fired. *)
Definition twice (n : t) (t1 t2 : Z) (title msg : string) (key : option string)
  : bool * bool :=
  let r1 := show n t1 title msg key in
  let r2 := show (snd r1) t2 title msg key in
  (fired r1, fired r2).

End Notifier.

(** ** The desktop program: [MonitorLogic] and [WSClient] *)

Module Gui.

(** An entry of [self.devices]. *)
Record device : Type := Device {
  name : json;
  online : option bool;
  last_event : option pyval
}.

(** [self.devices], [self.device_last_ok] and the calls made so far. *)
Record state : Type := State {
  devices : gmap hkey device;
  device_last_ok : gmap hkey Z;
  out : list effect
}.

Definition init : state := State ∅ ∅ [].

Definition emit (e : effect) : M state unit :=
  modify (fun s => State (devices s) (device_last_ok s) (out s ++ [e])).

Definition set_device (k : hkey) (d : device) : M state unit :=
  modify (fun s => State (<[k := d]> (devices s)) (device_last_ok s) (out s)).

Definition set_last_ok (k : hkey) (now : Z) : M state unit :=
  modify (fun s => State (devices s) (<[k := now]> (device_last_ok s)) (out s)).

(** [self.log.add(...)]: the call is made; it raises when the database
    does not accept the row. *)
Definition log_add (e : env) (now : Z) (source : pyval) (kind : string)
    (title details : pyval) : M state unit :=
  let row := Incident now source kind title details in
  (emit (LogAdd row) ;;
   if log_accepts e row then ret tt else raise DatabaseError)%py.

(** [self.devices.setdefault(sn, fresh)]. *)
Definition setdefault (k : hkey) (fresh : device) : M state device :=
  fun s => match devices s !! k with
           | Some d => (Ok d, s)
           | None => (Ok fresh, State (<[k := fresh]> (devices s)) (device_last_ok s) (out s))
           end.

Inductive branch : Type := Snapshot | Update | Alert | Error.

(** The chain of [if t in (...)] tests of [handle], first match first. *)
Definition select (t : string) : option branch :=
  if existsb (String.eqb t) snapshot_kinds then Some Snapshot
  else if existsb (String.eqb t) update_kinds then Some Update
  else if existsb (String.eqb t) alert_kinds then Some Alert
  else if existsb (String.eqb t) error_kinds then Some Error
  else None.

(** [evt.get("type","").lower()]. *)
Definition event_type (evt : list (string * json)) : M state string :=
  match assoc "type" evt with
  | None => ret ""
  | Some (JStr s) => ret (lower s)
  | Some _ => raise AttributeError
  end.

(** The body of the loop over a device or station list. *)
Definition snapshot_item (now : Z) (item : json) : M state unit :=
  (let* d := as_dict item in
   let sn := por (por (dict_get d "serial_number") (dict_get d "device_sn"))
                 (dict_get d "station_sn") in
   let name := por (por (por (dict_get d "name") (dict_get d "device_name"))
                        (dict_get d "station_name")) sn in
   let online := in_strs (dict_get d "state") online_states
                 || truthy (dict_get d "online") in
   let* k := as_key sn in
   set_device k (Device name (Some online) None) ;;
   when online (set_last_ok k now) ;;
   emit (GuiDevice sn name (Some online) None))%py.

(** [for d in evt.get("data") or []]: the items of a list are visited; the
    keys of a dict and the characters of a string are strings, on which
    the body's [d.get] fails at once; numbers and booleans are not
    iterable. *)
Definition handle_snapshot (now : Z) (evt : list (string * json)) : M state unit :=
  match por (dict_get evt "data") (JArr []) with
  | JArr items => for_each (snapshot_item now) items
  | JObj _ | JStr _ => raise AttributeError
  | JNull | JBool _ | JNum _ => raise TypeError
  end.

(** The serial and the name of a single-device message. *)
Definition update_serial (evt : list (string * json)) : json :=
  por (por (dict_get evt "device_sn") (dict_get evt "serial_number"))
      (dict_get evt "device_id").

Definition update_name (evt : list (string * json)) : json :=
  por (por (dict_get evt "device_name") (dict_get evt "name")) (update_serial evt).

Definition update_props (evt : list (string * json)) : json :=
  por (por (dict_get evt "properties") (dict_get evt "data")) (JObj []).

(** [_maybe_flag_offline(sn, name)]. *)
Definition maybe_flag_offline (e : env) (now : Z) (sn name : json) : M state unit :=
  if negb (truthy sn) then ret tt else
  (let* k := as_key sn in
   let* last_ok := gets (fun s => device_last_ok s !! k) in
   match last_ok with
   | None => ret tt
   | Some last_ok =>
       if (now - last_ok >? offline_grace_seconds e)%Z then
         let* dev := gets (fun s => devices s !! k) in
         let flagged := match dev with Some d => online d | None => None end in
         match flagged with
         | Some false => ret tt
         | _ =>
             match dev with
             | Some d => set_device k (Device (Gui.name d) (Some false) (last_event d))
             | None => ret tt
             end ;;
             emit (GuiDevice sn name (Some false)
                     (match dev with Some d => last_event d | None => None end)) ;;
             emit (GuiLog (Text [Stamp now; Lit "  [INCIDENT] "; Fmt name; Lit " offline"])) ;;
             emit (Show (Text [Lit "Eufy: urządzenie offline"])
                        (Text [Fmt name; Lit " nie odpowiada."])
                        (Text [Lit "off_"; Fmt sn])) ;;
             log_add e now (Val name) "incident" (Text [Lit "Device offline"]) (Val sn)
         end
       else ret tt
   end)%py.

(** The branch of [handle] for a single-device message.  The hint [online]
    is always a boolean, so the test [online is not None] always passes. *)
Definition handle_update (e : env) (now : Z) (evt : list (string * json)) : M state unit :=
  (let sn := update_serial evt in
   let name := update_name evt in
   let* props := as_dict (update_props evt) in
   let online := online_hint props in
   when (truthy sn)
     (let* k := as_key sn in
      let* dev := setdefault k (Device name None None) in
      set_device k (Device name (Gui.online dev) (last_event dev)) ;;
      when (online && negb (match Gui.online dev with Some true => true | _ => false end))
        (emit (Show (Text [Lit "Eufy: urządzenie wróciło"])
                    (Text [Fmt name; Lit " online"])
                    (Text [Lit "rec_"; Fmt sn])) ;;
         log_add e now (Val name) "recovery" (Text [Lit "Device reachable"]) (Val sn)) ;;
      set_device k (Device name (Some online) (last_event dev)) ;;
      when online (set_last_ok k now) ;;
      emit (GuiDevice sn name (Some online) (last_event dev))) ;;
   maybe_flag_offline e now sn name)%py.

(** [evt.get("message") or (evt.get("data") or {}).get("message") or ""]. *)
Definition alert_text (evt : list (string * json)) : M state json :=
  let m := dict_get evt "message" in
  if truthy m then ret m else
  (let* d := as_dict (por (dict_get evt "data") (JObj [])) in
   ret (por (dict_get d "message") (JStr "")))%py.

Definition handle_alert (e : env) (now : Z) (evt : list (string * json)) : M state unit :=
  (let name := por (por (dict_get evt "device_name") (dict_get evt "station_name"))
                   (JStr "Eufy") in
   let action := por (por (por (dict_get evt "event_type") (dict_get evt "name"))
                          (dict_get evt "action")) (JStr "event") in
   let* text := alert_text evt in
   let sn := por (por (dict_get evt "device_sn") (dict_get evt "serial_number")) JNull in
   when (truthy sn)
     (let* k := as_key sn in
      let* dev := setdefault k (Device name (Some true) None) in
      let seen := Some (Prefix 120 [Fmt action; Lit ": "; Fmt text]) in
      set_device k (Device (Gui.name dev) (online dev) seen) ;;
      set_last_ok k now ;;
      emit (GuiDevice sn (Gui.name dev) (online dev) seen)) ;;
   emit (GuiLog (Text [Stamp now; Lit "  ["; Fmt name; Lit "] "; Fmt action;
                       Lit " — "; Fmt text])) ;;
   emit (Show (Text [Lit "Eufy: "; Fmt action])
              (Text [Fmt name; Lit ": "; Fmt text])
              (Text [Lit "evt_"; Fmt name; Lit "_"; Fmt action])) ;;
   log_add e now (Val name) "alert" (Val action) (Val text))%py.

Definition handle_error (e : env) (now : Z) (evt : list (string * json)) : M state unit :=
  (let src := por (por (dict_get evt "device_name") (dict_get evt "station_name"))
                  (JStr "Eufy") in
   let m := dict_get evt "message" in
   (* msg = evt.get("message") or str(evt) *)
   let msg := if truthy m then Val m else Text [Fmt (JObj evt)] in
   let shown := if truthy m then Fmt m else Fmt (JObj evt) in
   emit (GuiLog (Text [Stamp now; Lit "  [ERROR] "; Fmt src; Lit ": "; shown])) ;;
   emit (Show (Text [Lit "Eufy: błąd"]) msg (Text [Lit "err_"; Fmt src])) ;;
   log_add e now (Val src) "error" (Text [Lit "Error"]) msg)%py.

(** The branch of [handle] a message is given to: its type is read and
    lowered, then looked up in the kinds. *)
Definition classify (evt : list (string * json)) : M state (option branch) :=
  (let* t := event_type evt in ret (select t))%py.

(** [MonitorLogic.handle(kind, payload)] at clock reading [now]. *)
Definition handle (e : env) (now : Z) (kind : string) (payload : json) : M state unit :=
  if String.eqb kind "conn" then emit (GuiConn payload)
  else if negb (String.eqb kind "event") then ret tt
  else
    (let* evt := as_dict payload in
     let* b := classify evt in
     match b with
     | Some Snapshot => handle_snapshot now evt
     | Some Update => handle_update e now evt
     | Some Alert => handle_alert e now evt
     | Some Error => handle_error e now evt
     | None => ret tt
     end)%py.

(** The online state of a serial: [None] when the device is not in the map
    or its state is still unset. *)
Definition online_of (s : state) (k : hkey) : option bool :=
  match devices s !! k with
  | Some d => online d
  | None => None
  end.

(** *** Describing messages and outcomes *)

(** The type of the message, once lowered, is a single-device kind. *)
Definition is_update (evt : list (string * json)) : bool :=
  match assoc "type" evt with
  | Some (JStr ty) =>
      match select (lower ty) with Some Update => true | _ => false end
  | _ => false
  end.

(** The online hint a single-device message carries, when its
    [properties] (or [data]) can be read. *)
Definition hint_of (evt : list (string * json)) : option bool :=
  match update_props evt with
  | JObj props => Some (online_hint props)
  | _ => None
  end.

(** [evt] is a single-device message about the device of key [k], with
    online hint [h]. *)
Definition device_update (evt : list (string * json)) (k : hkey) (h : bool) : Prop :=
  is_update evt = true /\
  truthy (update_serial evt) = true /\
  to_key (update_serial evt) = Some k /\
  hint_of evt = Some h.

(** [dev["last_event"]] of the entry an update finds or creates. *)
Definition prior_event (s : state) (k : hkey) : option pyval :=
  match devices s !! k with
  | Some d => last_event d
  | None => None
  end.

(** What [handle_update] tells the GUI about the device. *)
Definition device_shown (evt : list (string * json)) (s : state) (k : hkey)
    (h : bool) : effect :=
  GuiDevice (update_serial evt) (update_name evt) (Some h) (prior_event s k).

(** The record and the notification of a recovery. *)
Definition recovery_row (now : Z) (evt : list (string * json)) : incident :=
  Incident now (Val (update_name evt)) "recovery" (Text [Lit "Device reachable"])
           (Val (update_serial evt)).

Definition recovery_show (evt : list (string * json)) : effect :=
  Show (Text [Lit "Eufy: urządzenie wróciło"])
       (Text [Fmt (update_name evt); Lit " online"])
       (Text [Lit "rec_"; Fmt (update_serial evt)]).

(** *** [WSClient.run] *)

(** What the transport does, in order: opening the connection, a message
    sent ([ws.send(json.dumps(msg))]), an item put on the queue of the
    GUI, the pause before the next attempt. *)
Inductive action : Type :=
| Connect
| Send (msg : json)
| Put (kind : string) (payload : json)
| Sleep (seconds : Z).

Definition command (name : string) : json := JObj [("command", JStr name)].

Definition handshake : list json :=
  [command "initialize"; command "get_devices"; command "get_stations"].

(** One turn of the [while] loop, as the network decides it: the
    connection is refused; or the [n]-th handshake send raises after [n]
    of them went through ([n < 3]); or the handshake goes through, frames
    arrive ([None] is a frame [json.loads] rejects) and the stream ends,
    normally or with an exception. *)
Inductive session : Type :=
| Refused (error : string)
| SendFails (sent : nat) (error : string)
| Established (frames : list (option json)) (ending : option string).

Definition disconnected (error : string) : list action :=
  [Put "conn" (JObj [("status", JStr "disconnected"); ("error", JStr error)]); Sleep 5].

Definition receive (frame : option json) : list action :=
  match frame with
  | Some evt => [Put "event" evt]
  | None => []
  end.

Definition run_session (s : session) : list action :=
  match s with
  | Refused error => Connect :: disconnected error
  | SendFails sent error =>
      Connect :: map Send (firstn (Nat.min sent 2) handshake) ++ disconnected error
  | Established frames ending =>
      Connect :: map Send handshake
        ++ [Put "conn" (JObj [("status", JStr "connected")])]
        ++ concat (map receive frames)
        ++ match ending with Some error => disconnected error | None => [] end
  end.

(** The turns of the loop made until [stop()] is seen. *)
Definition run (sessions : list session) : list action :=
  concat (map run_session sessions).

(** The messages sent, in order. *)
Fixpoint sends (l : list action) : list json :=
  match l with
  | [] => []
  | Send msg :: rest => msg :: sends rest
  | _ :: rest => sends rest
  end.

End Gui.

(** ** The headless program: [EufyMonitor] and [EufyClient] *)

Module Ws.

(** [self.device_last_ok] and the calls made so far.  This program keeps
    no device map. *)
Record state : Type := State {
  device_last_ok : gmap hkey Z;
  out : list effect
}.

Definition init : state := State ∅ [].

Definition emit (e : effect) : M state unit :=
  modify (fun s => State (device_last_ok s) (out s ++ [e])).

Definition set_last_ok (k : hkey) (now : Z) : M state unit :=
  modify (fun s => State (<[k := now]> (device_last_ok s)) (out s)).

Definition log_add (e : env) (now : Z) (source : pyval) (kind : string)
    (title details : pyval) : M state unit :=
  let row := Incident now source kind title details in
  (emit (LogAdd row) ;;
   if log_accepts e row then ret tt else raise DatabaseError)%py.

(** [evt.get("type") in kinds]: the type is compared as it is. *)
Definition type_in (evt : list (string * json)) (kinds : list string) : bool :=
  in_strs (dict_get evt "type") kinds.

(** [evt.get("message") or evt.get("data", {}).get("message") or ""]. *)
Definition alert_text (evt : list (string * json)) : M state json :=
  let m := dict_get evt "message" in
  if truthy m then ret m else
  (let* d := as_dict (match assoc "data" evt with Some v => v | None => JObj [] end) in
   ret (por (dict_get d "message") (JStr "")))%py.

Definition handle_alert (e : env) (now : Z) (evt : list (string * json)) : M state unit :=
  (let name := por (por (dict_get evt "device_name") (dict_get evt "station_name"))
                   (JStr "Eufy") in
   let action := por (por (por (dict_get evt "event_type") (dict_get evt "name"))
                          (dict_get evt "action")) (JStr "event") in
   let* text := alert_text evt in
   emit (Show (Text [Lit "Eufy: "; Fmt action])
              (Text [Fmt name; Lit ": "; Fmt text])
              (Text [Lit "evt_"; Fmt name; Lit "_"; Fmt action])) ;;
   log_add e now (Val name) "alert" (Val action) (Val text))%py.

Definition update_serial (evt : list (string * json)) : json :=
  por (por (dict_get evt "device_sn") (dict_get evt "serial_number"))
      (dict_get evt "device_id").

Definition update_name (evt : list (string * json)) : json :=
  por (por (dict_get evt "device_name") (dict_get evt "name")) (update_serial evt).

Definition update_props (evt : list (string * json)) : json :=
  por (por (dict_get evt "properties") (dict_get evt "data")) (JObj []).

(** [datetime.timedelta(hours=24)], in seconds. *)
Definition day : Z := 86400.

Definition handle_update (e : env) (now : Z) (evt : list (string * json)) : M state unit :=
  (let dev_sn := update_serial evt in
   let name := update_name evt in
   let* props := as_dict (update_props evt) in
   let online := online_hint props in
   let* k := as_key dev_sn in
   if online then set_last_ok k now
   else
     let* recorded := gets (fun s => device_last_ok s !! k) in
     let last_ok := match recorded with Some t => t | None => now - day end in
     when (now - last_ok >? offline_grace_seconds e)%Z
       (emit (Show (Text [Lit "Eufy: urządzenie offline"])
                   (Text [Fmt name; Lit " nie odpowiada."])
                   (Text [Lit "off_"; Fmt dev_sn])) ;;
        log_add e now (Val name) "incident" (Text [Lit "Device offline"])
                (Text [Dumps (JObj props)])))%py.

Definition handle_error (e : env) (now : Z) (evt : list (string * json)) : M state unit :=
  (let src := por (por (dict_get evt "device_name") (dict_get evt "station_name"))
                  (JStr "Eufy") in
   let m := dict_get evt "message" in
   let msg := if truthy m then Val m else Text [Fmt (JObj evt)] in
   emit (Show (Text [Lit "Eufy: błąd"]) msg (Text [Lit "err_"; Fmt src])) ;;
   log_add e now (Val src) "error" (Text [Lit "Error"]) msg)%py.

(** [EufyMonitor.handle_event(evt)] at clock reading [now]: three
    independent [if] statements, one after the other. *)
Definition handle_event (e : env) (now : Z) (payload : json) : M state unit :=
  (let* evt := as_dict payload in
   when (type_in evt alert_kinds) (handle_alert e now evt) ;;
   when (type_in evt update_kinds) (handle_update e now evt) ;;
   when (type_in evt error_kinds) (handle_error e now evt))%py.

(** *** Describing messages and outcomes *)

Definition hint_of (evt : list (string * json)) : option bool :=
  match update_props evt with
  | JObj props => Some (online_hint props)
  | _ => None
  end.

(** [evt] is a single-device message about the serial of key [k], with
    online hint [h]. *)
Definition device_update (evt : list (string * json)) (k : hkey) (h : bool) : Prop :=
  type_in evt update_kinds = true /\
  to_key (update_serial evt) = Some k /\
  hint_of evt = Some h.

(** The record and the notification of a device gone offline. *)
Definition offline_row (now : Z) (evt : list (string * json)) : incident :=
  Incident now (Val (update_name evt)) "incident" (Text [Lit "Device offline"])
           (Text [Dumps (update_props evt)]).

Definition offline_show (evt : list (string * json)) : effect :=
  Show (Text [Lit "Eufy: urządzenie offline"])
       (Text [Fmt (update_name evt); Lit " nie odpowiada."])
       (Text [Lit "off_"; Fmt (update_serial evt)]).

(** *** [EufyClient.run] *)

Inductive action : Type :=
| Connect
| Send (msg : json)
| OnEvent (evt : json)
| Sleep (seconds : Z).

Definition command (name : string) : json := JObj [("command", JStr name)].

Definition handshake : list json :=
  [command "initialize"; command "get_devices"; command "get_stations"].

(** A received frame: one [json.loads] rejects, or a message together
    with whether the callback returns ([true]) or raises on it. *)
Inductive frame : Type :=
| Garbled
| Message (evt : json) (returns : bool).

Inductive session : Type :=
| Refused
| SendFails (sent : nat)
| Established (frames : list frame) (fails : bool).

(** The frames are passed to the callback until one makes it raise, which
    ends the connection like any other exception. *)
Fixpoint listen (frames : list frame) (fails : bool) : list action :=
  match frames with
  | [] => if fails then [Sleep 5] else []
  | Garbled :: rest => listen rest fails
  | Message evt true :: rest => OnEvent evt :: listen rest fails
  | Message evt false :: _ => [OnEvent evt; Sleep 5]
  end.

Definition run_session (s : session) : list action :=
  match s with
  | Refused => [Connect; Sleep 5]
  | SendFails sent => Connect :: map Send (firstn (Nat.min sent 2) handshake) ++ [Sleep 5]
  | Established frames fails => Connect :: map Send handshake ++ listen frames fails
  end.

Definition run (sessions : list session) : list action :=
  concat (map run_session sessions).

(** The messages sent, in order. *)
Fixpoint sends (l : list action) : list json :=
  match l with
  | [] => []
  | Send msg :: rest => msg :: sends rest
  | _ :: rest => sends rest
  end.

End Ws.

(** ** Sample configuration, messages and states *)

Module Sample.

(** Grace period 60 s, a database that accepts every row. *)
Definition cfg60 : env := Env 60 (fun _ => true).

(** A database that rejects every row. *)
Definition cfg_broken_db : env := Env 60 (fun _ => false).

(** [{"type": "device update", "device_sn": sn, "properties": {"online": b}}]. *)
Definition update (sn : string) (b : bool) : list (string * json) :=
  [("type", JStr "device update"); ("device_sn", JStr sn);
   ("properties", JObj [("online", JBool b)])].

(** [{"type": "error", "message": "boom"}]. *)
Definition error_message : list (string * json) :=
  [("type", JStr "error"); ("message", JStr "boom")].

(** [{"type": "device update", "serial_number": "A", "device_sn": "B"}]. *)
Definition two_serials : list (string * json) :=
  [("type", JStr "device update"); ("serial_number", JStr "A"); ("device_sn", JStr "B")].

(** [{"type": "device update", "station_sn": "C"}]. *)
Definition station_only : list (string * json) :=
  [("type", JStr "device update"); ("station_sn", JStr "C")].

(** [{"type": "event", "device_sn": "S1", "event_type": "motion",
    "message": "seen"}]. *)
Definition motion : list (string * json) :=
  [("type", JStr "event"); ("device_sn", JStr "S1"); ("event_type", JStr "motion");
   ("message", JStr "seen")].

(** Two items of a device list with the same serial, the first online and
    the second not, and the message that lists them. *)
Definition cam_online : json :=
  JObj [("serial_number", JStr "S1"); ("name", JStr "Cam1"); ("online", JBool true)].

Definition cam_offline : json :=
  JObj [("serial_number", JStr "S1"); ("name", JStr "Cam1"); ("state", JStr "offline")].

Definition two_items : list json := [cam_online; cam_offline].

Definition two_devices : list (string * json) :=
  [("type", JStr "devices"); ("data", JArr two_items)].

(** The desktop program knowing one device, "Cam1" with serial "S1", in
    online state [o] and last seen at [seen]. *)
Definition gui_cam (o : option bool) (seen : Z) : Gui.state :=
  Gui.State {[ KStr "S1" := Gui.Device (JStr "Cam1") o None ]}
            {[ KStr "S1" := seen ]} [].

(** The headless program having seen serial "S1" at [seen]. *)
Definition ws_cam (seen : Z) : Ws.state := Ws.State {[ KStr "S1" := seen ]} [].

End Sample.

(** ** Relations between the state before and after a handler *)

(** Every run of [m] takes a state to one related to it by [R]. *)
Definition steps {S A} (R : S -> S -> Prop) (m : M S A) : Prop :=
  forall s, R s (snd (m s)).

(** A call to the GUI about a device. *)
Definition is_gui_device (x : effect) : bool :=
  match x with GuiDevice _ _ _ _ => true | _ => false end.

(** A record of kind "incident", the kind of "Device offline". *)
Definition is_offline_record (x : effect) : bool :=
  match x with
  | LogAdd row => String.eqb (kind row) "incident"
  | _ => false
  end.

Definition not_offline_record (x : effect) : bool := negb (is_offline_record x).

Module Track.

(** The calls made are kept and the new ones, all satisfying [P], come
    after them. *)
Definition gui_appends (P : effect -> bool) (s s' : Gui.state) : Prop :=
  exists new, Gui.out s' = Gui.out s ++ new /\ forallb P new = true.

(** No device and no last-seen time is dropped. *)
Definition gui_keeps (s s' : Gui.state) : Prop :=
  dom (Gui.devices s) ⊆ dom (Gui.devices s') /\
  dom (Gui.device_last_ok s) ⊆ dom (Gui.device_last_ok s').

(** Each last-seen time is the one there was or [now]. *)
Definition seen_since (now : Z) (old new : gmap hkey Z) : Prop :=
  (forall k t, old !! k = Some t -> new !! k = Some t \/ new !! k = Some now) /\
  (forall k t, new !! k = Some t -> old !! k = Some t \/ t = now).

Definition gui_seen_since (now : Z) (s s' : Gui.state) : Prop :=
  seen_since now (Gui.device_last_ok s) (Gui.device_last_ok s').

Definition ws_seen_since (now : Z) (s s' : Ws.state) : Prop :=
  seen_since now (Ws.device_last_ok s) (Ws.device_last_ok s').

(** The last-seen times are the same. *)
Definition ws_same_seen (s s' : Ws.state) : Prop :=
  Ws.device_last_ok s' = Ws.device_last_ok s.

(** In the headless program the device of key [k] is stale at [now]: its
    last-seen time, or the instant a day before [now] when none is
    recorded, is more than the grace period back. *)
Definition ws_stale (e : env) (now : Z) (s : Ws.state) (k : hkey) : Prop :=
  (now - match Ws.device_last_ok s !! k with
         | Some t => t
         | None => now - Ws.day
         end > offline_grace_seconds e)%Z.

(** Nothing but the entries of key [k] differs. *)
Definition gui_only_at (k : hkey) (s s' : Gui.state) : Prop :=
  forall k', k' <> k ->
    Gui.devices s' !! k' = Gui.devices s !! k' /\
    Gui.device_last_ok s' !! k' = Gui.device_last_ok s !! k'.

End Track.

(** ** The items of a device or station list *)

Module Listed.

(** The serial, the name and the online flag [snapshot_item] reads. *)
Definition serial (d : list (string * json)) : json :=
  por (por (dict_get d "serial_number") (dict_get d "device_sn")) (dict_get d "station_sn").

Definition name (d : list (string * json)) : json :=
  por (por (por (dict_get d "name") (dict_get d "device_name")) (dict_get d "station_name"))
      (serial d).

Definition online (d : list (string * json)) : bool :=
  in_strs (dict_get d "state") online_states || truthy (dict_get d "online").

(** The key an item is filed under: it is a dict and its serial hashable. *)
Definition key (item : json) : option hkey :=
  match item with
  | JObj d => to_key (serial d)
  | _ => None
  end.

Definition usable (item : json) : bool :=
  match key item with Some _ => true | None => false end.

(** The entry made for an item and what the GUI is told about it. *)
Definition entry (item : json) : Gui.device :=
  match item with
  | JObj d => Gui.Device (name d) (Some (online d)) None
  | _ => Gui.Device JNull None None
  end.

Definition shown (item : json) : effect :=
  match item with
  | JObj d => GuiDevice (serial d) (name d) (Some (online d)) None
  | _ => GuiDevice JNull JNull None None
  end.

Definition is_online (item : json) : bool :=
  match item with JObj d => online d | _ => false end.

(** A message of kind "devices" or "stations" whose [data] is the list
    [items] (an absent or falsy [data] counts as the empty list). *)
Definition lists (evt : list (string * json)) (items : list json) : Prop :=
  (exists ty, assoc "type" evt = Some (JStr ty) /\
              Gui.select (lower ty) = Some Gui.Snapshot) /\
  por (dict_get evt "data") (JArr []) = JArr items.

End Listed.

(** ** Alerts and errors *)

Module Raised.

(** The name, the action and the serial of an alert, the source of an
    error. *)
Definition name (evt : list (string * json)) : json :=
  por (por (dict_get evt "device_name") (dict_get evt "station_name")) (JStr "Eufy").

Definition action (evt : list (string * json)) : json :=
  por (por (por (dict_get evt "event_type") (dict_get evt "name")) (dict_get evt "action"))
      (JStr "event").

Definition serial (evt : list (string * json)) : json :=
  por (por (dict_get evt "device_sn") (dict_get evt "serial_number")) JNull.

(** The type of the message as the two programs read it. *)
Definition gui_kind (evt : list (string * json)) (b : Gui.branch) : Prop :=
  exists ty, assoc "type" evt = Some (JStr ty) /\ Gui.select (lower ty) = Some b.

(** The calls an alert ends with in the desktop program. *)
Definition alert_log (now : Z) (evt : list (string * json)) (text : json) : effect :=
  GuiLog (Text [Stamp now; Lit "  ["; Fmt (name evt); Lit "] "; Fmt (action evt);
                Lit " — "; Fmt text]).

Definition alert_show (evt : list (string * json)) (text : json) : effect :=
  Show (Text [Lit "Eufy: "; Fmt (action evt)])
       (Text [Fmt (name evt); Lit ": "; Fmt text])
       (Text [Lit "evt_"; Fmt (name evt); Lit "_"; Fmt (action evt)]).

Definition alert_row (now : Z) (evt : list (string * json)) (text : json) : incident :=
  Incident now (Val (name evt)) "alert" (Val (action evt)) (Val text).

(** [dev["last_event"]] after an alert. *)
Definition last_event (evt : list (string * json)) (text : json) : option pyval :=
  Some (Prefix 120 [Fmt (action evt); Lit ": "; Fmt text]).

(** The entry of the device after an alert: the one there was with its last
    event replaced, or a new one, online, under the alert's name. *)
Definition alerted (evt : list (string * json)) (text : json) (prior : option Gui.device)
  : Gui.device :=
  match prior with
  | Some d => Gui.Device (Gui.name d) (Gui.online d) (last_event evt text)
  | None => Gui.Device (name evt) (Some true) (last_event evt text)
  end.

(** The message and the calls of an error. *)
Definition error_msg (evt : list (string * json)) : pyval :=
  if truthy (dict_get evt "message") then Val (dict_get evt "message")
  else Text [Fmt (JObj evt)].

Definition error_show (evt : list (string * json)) : effect :=
  Show (Text [Lit "Eufy: błąd"]) (error_msg evt) (Text [Lit "err_"; Fmt (name evt)]).

Definition error_row (now : Z) (evt : list (string * json)) : incident :=
  Incident now (Val (name evt)) "error" (Text [Lit "Error"]) (error_msg evt).

End Raised.

(** ** Runs of calls to the alert gate *)

Module Gate.

(** [show] called with the same key at each of [times], in order: the
    times at which it went on to notify, and the notifier afterwards. *)
Fixpoint fired_at (n : Notifier.t) (title msg : string) (key : option string)
    (times : list Z) : list Z * Notifier.t :=
  match times with
  | [] => ([], n)
  | now :: rest =>
      let r := Notifier.show n now title msg key in
      let (later, n') := fired_at (snd r) title msg key rest in
      (if Notifier.fired r then now :: later else later, n')
  end.

(** Any two neighbours of the list are at least [gap] apart. *)
Fixpoint spaced (gap : Z) (l : list Z) : Prop :=
  match l with
  | a :: ((b :: _) as rest) => (gap <= b - a)%Z /\ spaced gap rest
  | _ => True
  end.

End Gate.

(** ** What the transports leave behind *)

Module Wire.

(** The messages the desktop transport puts on the queue as events, its
    pauses, and the items of the queue. *)
Fixpoint gui_events (l : list Gui.action) : list json :=
  match l with
  | [] => []
  | Gui.Put kind payload :: rest =>
      if String.eqb kind "event" then payload :: gui_events rest else gui_events rest
  | _ :: rest => gui_events rest
  end.

Fixpoint gui_sleeps (l : list Gui.action) : list Z :=
  match l with
  | [] => []
  | Gui.Sleep n :: rest => n :: gui_sleeps rest
  | _ :: rest => gui_sleeps rest
  end.

Fixpoint queued (l : list Gui.action) : list (string * json) :=
  match l with
  | [] => []
  | Gui.Put kind payload :: rest => (kind, payload) :: queued rest
  | _ :: rest => queued rest
  end.

(** The frames of a session that parse, and whether the session ends in
    an exception. *)
Fixpoint parsed (frames : list (option json)) : list json :=
  match frames with
  | [] => []
  | Some evt :: rest => evt :: parsed rest
  | None :: rest => parsed rest
  end.

Definition gui_received (s : Gui.session) : list json :=
  match s with
  | Gui.Established frames _ => parsed frames
  | _ => []
  end.

Definition gui_failed (s : Gui.session) : bool :=
  match s with
  | Gui.Established _ None => false
  | _ => true
  end.

(** The same for the headless transport. *)
Fixpoint ws_sleeps (l : list Ws.action) : list Z :=
  match l with
  | [] => []
  | Ws.Sleep n :: rest => n :: ws_sleeps rest
  | _ :: rest => ws_sleeps rest
  end.

Definition raises (f : Ws.frame) : bool :=
  match f with Ws.Message _ false => true | _ => false end.

Definition ws_failed (s : Ws.session) : bool :=
  match s with
  | Ws.Established frames fails => fails || existsb raises frames
  | _ => true
  end.

End Wire.

(** ** The headless transport driving the handler *)

Module Serve.

(** The loop [async for raw in ws] of [EufyClient.run] with
    [EufyMonitor.handle_event] as callback: each frame comes with the clock
    reading at which it is handled; a frame [json.loads] rejects is
    skipped; an exception of the handler, like the one that ends the stream
    when [fails], leads to the pause. *)
Fixpoint listen (e : env) (frames : list (Z * option json)) (fails : bool) (s : Ws.state)
  : list Ws.action * Ws.state :=
  match frames with
  | [] => (if fails then [Ws.Sleep 5] else [], s)
  | (_, None) :: rest => listen e rest fails s
  | (now, Some evt) :: rest =>
      match Ws.handle_event e now evt s with
      | (Ok _, s') =>
          let (acts, s'') := listen e rest fails s' in (Ws.OnEvent evt :: acts, s'')
      | (Raise _, s') => ([Ws.OnEvent evt; Ws.Sleep 5], s')
      end
  end.

End Serve.

(** ** The window of the desktop program: [App._poll_queue] *)

Module App.

(** The calls [_poll_queue] makes on the widgets and on itself. *)
Inductive call : Type :=
| SetStatus (text : pyval)
| ConnectButton (enabled : bool)
| DisconnectButton (enabled : bool)
| UpsertDevice (payload : json)
| AppendLog (payload : json)
| After (ms : Z).

(** [payload.get('error','')]. *)
Definition error_of (payload : list (string * json)) : json :=
  match assoc "error" payload with Some v => v | None => JStr "" end.

(** The body of the loop for one item of the queue. *)
Definition poll_item (kind : string) (payload : json) : result (list call) :=
  if String.eqb kind "conn" then
    match payload with
    | JObj p =>
        if in_strs (dict_get p "status") ["connected"] then
          Ok [SetStatus (Text [Lit "Połączono z eufy-security-ws"]);
              ConnectButton false; DisconnectButton true]
        else
          Ok [SetStatus (Text [Lit "Rozłączono ("; Fmt (error_of p); Lit ")"]);
              ConnectButton true; DisconnectButton false]
    | _ => Raise AttributeError
    end
  else if String.eqb kind "device_update" then Ok [UpsertDevice payload]
  else if String.eqb kind "log" then Ok [AppendLog payload]
  else Ok [].

(** The loop: items are taken until the queue is empty or one raises. *)
Fixpoint drain (items : list (string * json)) : list call * result unit :=
  match items with
  | [] => ([], Ok tt)
  | (kind, payload) :: rest =>
      match poll_item kind payload with
      | Ok calls => let (later, r) := drain rest in (calls ++ later, r)
      | Raise x => ([], Raise x)
      end
  end.

(** [_poll_queue] on a queue holding [items]: it schedules itself again
    unless an exception other than [queue.Empty] stopped it. *)
Definition poll_queue (items : list (string * json)) : list call * result unit :=
  match drain items with
  | (calls, Ok _) => (calls ++ [After 150], Ok tt)
  | (calls, Raise x) => (calls, Raise x)
  end.

(** An item as [WSClient.run] puts them: an event, or a connection status
    that is a dict. *)
Definition from_transport (item : string * json) : bool :=
  let (kind, payload) := item in
  String.eqb kind "event"
  || (String.eqb kind "conn" && match payload with JObj _ => true | _ => false end).

(** A call on the status line or on a button. *)
Definition on_status (c : call) : bool :=
  match c with
  | SetStatus _ | ConnectButton _ | DisconnectButton _ | After _ => true
  | UpsertDevice _ | AppendLog _ => false
  end.

End App.

(** * Properties *)

(** ** Running the monad *)

Ltac run_py :=
  cbv beta iota zeta delta
    [bind ret raise modify gets when as_dict as_key andb negb
     Gui.emit Gui.set_device Gui.set_last_ok Gui.log_add Gui.setdefault
     Gui.devices Gui.device_last_ok Gui.out Gui.online_of
     Gui.name Gui.online Gui.last_event
     Ws.emit Ws.set_last_ok Ws.log_add Ws.device_last_ok Ws.out].

(** ** The desktop program on a single-device message *)

Section GuiUpdate.

Variables (e : env) (now : Z) (evt : list (string * json)).
Variables (k : hkey) (props : list (string * json)).

Hypothesis serial_given : truthy (Gui.update_serial evt) = true.
Hypothesis serial_key : to_key (Gui.update_serial evt) = Some k.
Hypothesis props_dict : Gui.update_props evt = JObj props.

(** A false (or absent) hint: the entry is set to [online = False], the
    GUI is told, and the staleness check finds the entry already flagged. *)
Lemma gui_update_negative (s : Gui.state) :
  online_hint props = false ->
  Gui.handle_update e now evt s =
    (Ok tt,
     Gui.State (<[k := Gui.Device (Gui.update_name evt) (Some false) (Gui.prior_event s k)]>
                  (Gui.devices s))
               (Gui.device_last_ok s)
               (Gui.out s ++ [Gui.device_shown evt s k false])).
Proof.
  intros Hhint.
  unfold Gui.handle_update, Gui.maybe_flag_offline, Gui.device_shown, Gui.prior_event.
  rewrite props_dict. destruct s as [devs oks o]. run_py.
  rewrite Hhint, serial_given, serial_key. run_py.
  destruct (devs !! k) as [d|] eqn:Hd; run_py.
  all: rewrite ?insert_insert_eq.
  all: destruct (oks !! k) as [t|]; [|reflexivity].
  all: destruct (now - t >? offline_grace_seconds e)%Z; [|reflexivity].
  all: rewrite lookup_insert_eq; reflexivity.
Qed.

(** A true hint for a device that is not online: the recovery is notified
    and recorded, the entry set online and the last-seen time refreshed. *)
Lemma gui_update_recovery (s : Gui.state) :
  online_hint props = true ->
  (0 <= offline_grace_seconds e)%Z ->
  Gui.online_of s k <> Some true ->
  log_accepts e (Gui.recovery_row now evt) = true ->
  Gui.handle_update e now evt s =
    (Ok tt,
     Gui.State (<[k := Gui.Device (Gui.update_name evt) (Some true) (Gui.prior_event s k)]>
                  (Gui.devices s))
               (<[k := now]> (Gui.device_last_ok s))
               (Gui.out s ++ [Gui.recovery_show evt; LogAdd (Gui.recovery_row now evt);
                              Gui.device_shown evt s k true])).
Proof.
  intros Hhint Hgrace Hprev Hlog.
  unfold Gui.handle_update, Gui.maybe_flag_offline, Gui.device_shown, Gui.prior_event,
    Gui.recovery_show.
  unfold Gui.recovery_row in *.
  rewrite props_dict. destruct s as [devs oks o]. run_py.
  rewrite Hhint, serial_given, serial_key. run_py.
  unfold Gui.online_of in Hprev. cbn [Gui.devices] in Hprev.
  destruct (devs !! k) as [[nm [[|]|] le]|] eqn:Hd; cbn [Gui.online] in Hprev;
    try congruence; run_py; rewrite Hlog; run_py.
  all: rewrite ?insert_insert_eq, lookup_insert_eq, Z.sub_diag.
  all: destruct (0 >? offline_grace_seconds e)%Z eqn:Hgt; [lia|].
  all: rewrite <- !app_assoc; reflexivity.
Qed.

(** A true hint for a device that is online already: only the GUI is told. *)
Lemma gui_update_still_online (s : Gui.state) :
  online_hint props = true ->
  (0 <= offline_grace_seconds e)%Z ->
  Gui.online_of s k = Some true ->
  Gui.handle_update e now evt s =
    (Ok tt,
     Gui.State (<[k := Gui.Device (Gui.update_name evt) (Some true) (Gui.prior_event s k)]>
                  (Gui.devices s))
               (<[k := now]> (Gui.device_last_ok s))
               (Gui.out s ++ [Gui.device_shown evt s k true])).
Proof.
  intros Hhint Hgrace Hprev.
  unfold Gui.handle_update, Gui.maybe_flag_offline, Gui.device_shown, Gui.prior_event.
  rewrite props_dict. destruct s as [devs oks o]. run_py.
  rewrite Hhint, serial_given, serial_key. run_py.
  unfold Gui.online_of in Hprev. cbn [Gui.devices] in Hprev.
  destruct (devs !! k) as [[nm on le]|] eqn:Hd; cbn [Gui.online] in Hprev;
    [subst on|discriminate]. run_py.
  rewrite ?insert_insert_eq, lookup_insert_eq, Z.sub_diag.
  destruct (0 >? offline_grace_seconds e)%Z eqn:Hgt; [lia|]. reflexivity.
Qed.

End GuiUpdate.

(** A message whose lowered type is one of the single-device kinds is
    handled by [handle_update]. *)
Lemma gui_handle_is_update e now evt (s : Gui.state) :
  Gui.is_update evt = true ->
  Gui.handle e now "event" (JObj evt) s = Gui.handle_update e now evt s.
Proof.
  unfold Gui.is_update, Gui.handle, Gui.classify, Gui.event_type.
  cbn [String.eqb Ascii.eqb Bool.eqb negb]. run_py.
  destruct (assoc "type" evt) as [[| | |ty| |]|]; try discriminate.
  run_py. destruct (Gui.select (lower ty)) as [[]|]; try discriminate. reflexivity.
Qed.

(** The hypotheses of the lemmas above, read off [Gui.device_update]. *)
Lemma gui_device_update_inv evt k h :
  Gui.device_update evt k h ->
  Gui.is_update evt = true /\
  truthy (Gui.update_serial evt) = true /\
  to_key (Gui.update_serial evt) = Some k /\
  exists props, Gui.update_props evt = JObj props /\ online_hint props = h.
Proof.
  intros (Hu & Ht & Hk & Hh). repeat split; try assumption.
  unfold Gui.hint_of in Hh. destruct (Gui.update_props evt); try discriminate.
  eexists; split; [reflexivity|congruence].
Qed.

(** ** Health tracking in the desktop program *)

(** C1 (as the desktop program behaves).  A single-device message with a
    false or absent online hint, processed when the device was last seen
    more than the grace period ago, is answered by the desktop program with
    the device update for the GUI and nothing else: no "Device offline"
    record and no offline notification, the entry having been set offline by
    the hint itself just before the staleness check looks at it. *)
Theorem gui_stale_negative_update_not_flagged e now evt k T (s : Gui.state) :
  Gui.device_update evt k false ->
  Gui.device_last_ok s !! k = Some T ->
  (now - T > offline_grace_seconds e)%Z ->
  exists s',
    Gui.handle e now "event" (JObj evt) s = (Ok tt, s') /\
    Gui.out s' = Gui.out s ++ [Gui.device_shown evt s k false].
Proof.
  intros Hupd _ _.
  destruct (gui_device_update_inv _ _ _ Hupd) as (Hu & Ht & Hk & props & Hp & Hh).
  eexists. split.
  - rewrite (gui_handle_is_update _ _ _ _ Hu).
    apply (gui_update_negative e now evt k props Ht Hk Hp s Hh).
  - reflexivity.
Qed.

Lemma gui_stale_negative_update_not_flagged_at_61 :
  exists s',
    Gui.handle Sample.cfg60 1061 "event" (JObj (Sample.update "S1" false))
               (Sample.gui_cam (Some true) 1000) = (Ok tt, s') /\
    Gui.out s' = [GuiDevice (JStr "S1") (JStr "S1") (Some false) None].
Proof.
  apply (gui_stale_negative_update_not_flagged Sample.cfg60 1061
           (Sample.update "S1" false) (KStr "S1") 1000 (Sample.gui_cam (Some true) 1000)).
  - repeat split; reflexivity.
  - reflexivity.
  - reflexivity.
Defined.



(** C3 fails as stated: with grace period 60, "Cam1" online and last seen
    at 1000, a message with online hint false processed at 1010, well within
    the grace period, leaves the device offline. *)
Lemma negative_hint_changes_state_within_grace :
  (1010 - 1000 <= offline_grace_seconds Sample.cfg60)%Z /\
  Gui.online_of (Sample.gui_cam (Some true) 1000) (KStr "S1") = Some true /\
  exists s',
    Gui.handle Sample.cfg60 1010 "event" (JObj (Sample.update "S1" false))
               (Sample.gui_cam (Some true) 1000) = (Ok tt, s') /\
    Gui.online_of s' (KStr "S1") = Some false.
Proof.
  split; [vm_compute; discriminate|]. split; [reflexivity|].
  eexists. split; [vm_compute; reflexivity|reflexivity].
Qed.

(** C3 (amended).  In the desktop program, a single-device message whose
    online hint is false sets the device's online state to offline at once,
    whatever the state was and however recently the device was seen. *)
Theorem negative_hint_sets_offline e now evt k (s : Gui.state) :
  Gui.device_update evt k false ->
  exists s',
    Gui.handle e now "event" (JObj evt) s = (Ok tt, s') /\
    Gui.online_of s' k = Some false.
Proof.
  intros Hupd.
  destruct (gui_device_update_inv _ _ _ Hupd) as (Hu & Ht & Hk & props & Hp & Hh).
  eexists. split.
  - rewrite (gui_handle_is_update _ _ _ _ Hu).
    apply (gui_update_negative e now evt k props Ht Hk Hp s Hh).
  - unfold Gui.online_of. cbn [Gui.devices]. rewrite lookup_insert_eq. reflexivity.
Qed.

Lemma negative_hint_sets_offline_cam :
  exists s',
    Gui.handle Sample.cfg60 1010 "event" (JObj (Sample.update "S1" false))
               (Sample.gui_cam (Some true) 1000) = (Ok tt, s') /\
    Gui.online_of s' (KStr "S1") = Some false.
Proof.
  apply (negative_hint_sets_offline Sample.cfg60 1010 (Sample.update "S1" false)
           (KStr "S1") (Sample.gui_cam (Some true) 1000)).
  repeat split; reflexivity.
Defined.

(** ** Health tracking in the headless program *)

Lemma ws_type_in_update evt :
  Ws.type_in evt update_kinds = true ->
  Ws.type_in evt alert_kinds = false /\ Ws.type_in evt error_kinds = false.
Proof.
  unfold Ws.type_in, in_strs. destruct (dict_get evt "type") as [| | |ty| |]; try discriminate.
  cbn [existsb update_kinds alert_kinds error_kinds]. intros H.
  repeat (apply orb_prop in H; destruct H as [H|H]); try discriminate;
    apply String.eqb_eq in H; subst ty; split; reflexivity.
Qed.

(** A single-device message is handled by [handle_update] alone. *)
Lemma ws_handle_is_update e now evt (s : Ws.state) :
  Ws.type_in evt update_kinds = true ->
  Ws.handle_event e now (JObj evt) s = Ws.handle_update e now evt s.
Proof.
  intros Hu. destruct (ws_type_in_update _ Hu) as [Ha He].
  unfold Ws.handle_event. run_py. rewrite Hu, Ha, He.
  destruct (Ws.handle_update e now evt s) as [[[]|x] s']; reflexivity.
Qed.

(** A false hint: the device is reported offline when its last-seen time,
    or the instant a day ago if none is recorded, is more than the grace
    period back. *)
Lemma ws_update_negative e now evt k (s : Ws.state) :
  to_key (Ws.update_serial evt) = Some k ->
  Ws.hint_of evt = Some false ->
  Ws.handle_update e now evt s =
    let last_ok := match Ws.device_last_ok s !! k with
                   | Some t => t
                   | None => (now - Ws.day)%Z
                   end in
    if (now - last_ok >? offline_grace_seconds e)%Z then
      (if log_accepts e (Ws.offline_row now evt) then Ok tt else Raise DatabaseError,
       Ws.State (Ws.device_last_ok s)
                (Ws.out s ++ [Ws.offline_show evt; LogAdd (Ws.offline_row now evt)]))
    else (Ok tt, s).
Proof.
  intros Hk Hh. unfold Ws.handle_update, Ws.hint_of, Ws.offline_row, Ws.offline_show in *.
  destruct (Ws.update_props evt) as [| | | | |props]; try discriminate.
  injection Hh as Hh. destruct s as [oks o]. run_py. rewrite Hh, Hk. run_py.
  destruct (oks !! k) as [t|]; cbv zeta.
  all: match goal with |- context [(?a >? ?b)%Z] => destruct (a >? b)%Z end;
    [|reflexivity].
  all: destruct (log_accepts e _); rewrite <- app_assoc; reflexivity.
Qed.

(** The scenario of C1 in the headless program: with grace period 60 and
    the device last seen at [T], a false hint at [T + 61] is notified and
    recorded once as "Device offline", and a false hint at [T + 59] is not. *)
Lemma ws_stale_negative_update_flagged T :
  Ws.handle_event Sample.cfg60 (T + 61) (JObj (Sample.update "S1" false)) (Sample.ws_cam T) =
    (Ok tt, Ws.State {[ KStr "S1" := T ]}
              [Ws.offline_show (Sample.update "S1" false);
               LogAdd (Ws.offline_row (T + 61) (Sample.update "S1" false))]) /\
  Ws.handle_event Sample.cfg60 (T + 59) (JObj (Sample.update "S1" false)) (Sample.ws_cam T) =
    (Ok tt, Sample.ws_cam T).
Proof.
  split.
  - rewrite ws_handle_is_update by reflexivity.
    rewrite (ws_update_negative _ _ _ (KStr "S1")) by reflexivity.
    unfold Sample.ws_cam. cbn [Ws.device_last_ok Ws.out]. rewrite lookup_singleton_eq.
    cbv zeta. replace (T + 61 - T)%Z with 61%Z by lia. reflexivity.
  - rewrite ws_handle_is_update by reflexivity.
    rewrite (ws_update_negative _ _ _ (KStr "S1")) by reflexivity.
    unfold Sample.ws_cam. cbn [Ws.device_last_ok Ws.out]. rewrite lookup_singleton_eq.
    cbv zeta. replace (T + 59 - T)%Z with 59%Z by lia. reflexivity.
Qed.

(** C10.  In the headless program, a single-device message with a false
    online hint for a serial that has no recorded last-seen time is treated
    as if the device had been seen a day before: when the grace period is
    below 86400 seconds the offline notification is issued and the "Device
    offline" record is written at once (and the call returns normally when
    the database accepts the record). *)
Theorem ws_unseen_device_flagged_at_once e now evt k (s : Ws.state) :
  (offline_grace_seconds e < 86400)%Z ->
  Ws.device_update evt k false ->
  Ws.device_last_ok s !! k = None ->
  exists r,
    Ws.handle_event e now (JObj evt) s =
      (r, Ws.State (Ws.device_last_ok s)
                   (Ws.out s ++ [Ws.offline_show evt; LogAdd (Ws.offline_row now evt)])) /\
    kind (Ws.offline_row now evt) = "incident" /\
    title (Ws.offline_row now evt) = Text [Lit "Device offline"] /\
    (log_accepts e (Ws.offline_row now evt) = true -> r = Ok tt).
Proof.
  intros Hgrace (Hu & Hk & Hh) Hnone.
  rewrite (ws_handle_is_update _ _ _ _ Hu), (ws_update_negative _ _ _ k _ Hk Hh), Hnone.
  cbv zeta. replace (now - (now - Ws.day))%Z with 86400%Z by (unfold Ws.day; lia).
  destruct (86400 >? offline_grace_seconds e)%Z eqn:Hgt; [|lia].
  eexists. split; [reflexivity|]. split; [reflexivity|]. split; [reflexivity|].
  intros ->. reflexivity.
Qed.

Lemma ws_unseen_device_flagged_at_once_cam :
  exists r,
    Ws.handle_event Sample.cfg60 5000 (JObj (Sample.update "S1" false)) Ws.init =
      (r, Ws.State ∅ [Ws.offline_show (Sample.update "S1" false);
                      LogAdd (Ws.offline_row 5000 (Sample.update "S1" false))]) /\
    kind (Ws.offline_row 5000 (Sample.update "S1" false)) = "incident" /\
    title (Ws.offline_row 5000 (Sample.update "S1" false)) = Text [Lit "Device offline"] /\
    (log_accepts Sample.cfg60 (Ws.offline_row 5000 (Sample.update "S1" false)) = true ->
     r = Ok tt).
Proof.
  apply (ws_unseen_device_flagged_at_once Sample.cfg60 5000 (Sample.update "S1" false)
           (KStr "S1") Ws.init).
  - reflexivity.
  - repeat split; reflexivity.
  - reflexivity.
Defined.

(** ** The alert gate *)




(** ** Messages that are not recognised *)

(** In the desktop program a message without a type, or whose type is a
    string that is none of the kinds once lowered, changes nothing and
    calls nothing. *)
Lemma gui_unrecognised_discarded e now evt (s : Gui.state) :
  (assoc "type" evt = None \/
   exists ty, assoc "type" evt = Some (JStr ty) /\ Gui.select (lower ty) = None) ->
  Gui.handle e now "event" (JObj evt) s = (Ok tt, s).
Proof.
  unfold Gui.handle, Gui.classify, Gui.event_type.
  cbn [String.eqb Ascii.eqb Bool.eqb negb]. run_py.
  intros [Hnone | (ty & Hty & Hsel)].
  - rewrite Hnone. reflexivity.
  - rewrite Hty. run_py. rewrite Hsel. reflexivity.
Qed.

(** In the headless program a message whose type is none of the kinds,
    whatever value it is, changes nothing and calls nothing. *)
Lemma ws_unrecognised_discarded e now evt (s : Ws.state) :
  Ws.type_in evt alert_kinds = false ->
  Ws.type_in evt update_kinds = false ->
  Ws.type_in evt error_kinds = false ->
  Ws.handle_event e now (JObj evt) s = (Ok tt, s).
Proof.
  intros Ha Hu He. unfold Ws.handle_event. run_py. rewrite Ha, Hu, He. reflexivity.
Qed.

Example heartbeat_discarded e now (s : Gui.state) (s' : Ws.state) :
  Gui.handle e now "event" (JObj [("type", JStr "heartbeat")]) s = (Ok tt, s) /\
  Ws.handle_event e now (JObj [("type", JStr "heartbeat")]) s' = (Ok tt, s').
Proof.
  split.
  - apply gui_unrecognised_discarded. right. eexists. split; reflexivity.
  - apply ws_unrecognised_discarded; reflexivity.
Qed.

(** C6 (where the desktop program departs from it).  A message whose type
    is present but is not a string, [null] or a number for instance, makes
    [handle] raise [AttributeError] at [.lower()]; nothing else happens. *)
Theorem gui_non_string_type_raises e now evt v (s : Gui.state) :
  assoc "type" evt = Some v ->
  (forall ty, v <> JStr ty) ->
  Gui.handle e now "event" (JObj evt) s = (Raise AttributeError, s).
Proof.
  intros Hty Hv. unfold Gui.handle, Gui.classify, Gui.event_type.
  cbn [String.eqb Ascii.eqb Bool.eqb negb]. run_py. rewrite Hty.
  destruct v; try reflexivity. exfalso. eapply Hv. reflexivity.
Qed.

Lemma gui_null_type_raises :
  Gui.handle Sample.cfg60 0 "event" (JObj [("type", JNull)]) Gui.init
    = (Raise AttributeError, Gui.init).
Proof.
  apply (gui_non_string_type_raises Sample.cfg60 0 [("type", JNull)] JNull Gui.init).
  - reflexivity.
  - discriminate.
Defined.

(** ** Failures of the incident database *)

Section Propagation.

Context {S : Type} (outS : S -> list effect) (e : env).

#[local] Abbreviation propagates := (propagates outS e).

Lemma propagates_quiet {A} (m : M S A) :
  (forall s, outS (snd (m s)) = outS s) -> propagates m.
Proof.
  intros H s. exists []. rewrite app_nil_r. split; [apply H|discriminate].
Qed.

Lemma propagates_ret {A} (a : A) : propagates (ret a).
Proof. apply propagates_quiet. reflexivity. Qed.

Lemma propagates_raise {A} (x : exn) : propagates (@raise S A x).
Proof. apply propagates_quiet. reflexivity. Qed.

Lemma propagates_bind {A B} (m : M S A) (k : A -> M S B) :
  propagates m -> (forall a, propagates (k a)) -> propagates (bind m k).
Proof.
  intros Hm Hk s. unfold bind. destruct (Hm s) as (new1 & Hout1 & Hrej1).
  destruct (m s) as [[a|x] s1] eqn:Hms; cbv beta iota; cbn [fst snd] in *.
  - destruct (Hk a s1) as (new2 & Hout2 & Hrej2).
    exists (new1 ++ new2). split.
    + rewrite Hout2, Hout1, app_assoc. reflexivity.
    + rewrite existsb_app. intros H. apply orb_prop in H. destruct H as [H|H].
      * specialize (Hrej1 H). discriminate.
      * apply Hrej2, H.
  - exists new1. split; [assumption|].
    intros H. specialize (Hrej1 H). injection Hrej1 as ->. reflexivity.
Qed.

Lemma propagates_when (b : bool) (m : M S unit) :
  propagates m -> propagates (when b m).
Proof. destruct b; [trivial|intros _; apply propagates_ret]. Qed.

Lemma propagates_for_each {A} (body : A -> M S unit) (l : list A) :
  (forall a, propagates (body a)) -> propagates (for_each body l).
Proof.
  intros Hbody. induction l as [|a l IH]; cbn [for_each].
  - apply propagates_ret.
  - apply propagates_bind; [apply Hbody|intros _; exact IH].
Qed.

(** Read at given new calls: a rejected record among them means the
    handler raised. *)
Lemma propagates_at {A} (m : M S A) s new row :
  propagates m ->
  outS (snd (m s)) = outS s ++ new ->
  In (LogAdd row) new ->
  log_accepts e row = false ->
  fst (m s) = Raise DatabaseError.
Proof.
  intros Hm Hout Hin Hrow. destruct (Hm s) as (new' & Hout' & Hrej).
  rewrite Hout in Hout'. apply app_inv_head in Hout'. subst new'.
  apply Hrej. apply existsb_exists. exists (LogAdd row). split; [assumption|].
  unfold rejected. rewrite Hrow. reflexivity.
Qed.

End Propagation.

Lemma gui_emit_propagates e x : rejected e x = false -> propagates Gui.out e (Gui.emit x).
Proof.
  intros Hx s. exists [x]. split; [reflexivity|].
  cbn [existsb]. rewrite Hx. discriminate.
Qed.

Lemma gui_log_add_propagates e now src knd ttl det :
  propagates Gui.out e (Gui.log_add e now src knd ttl det).
Proof.
  intros s. eexists. split.
  - unfold Gui.log_add. run_py. destruct (log_accepts e _); reflexivity.
  - unfold Gui.log_add. run_py. cbn [existsb rejected orb].
    destruct (log_accepts e _); [discriminate|reflexivity].
Qed.

Lemma ws_emit_propagates e x : rejected e x = false -> propagates Ws.out e (Ws.emit x).
Proof.
  intros Hx s. exists [x]. split; [reflexivity|].
  cbn [existsb]. rewrite Hx. discriminate.
Qed.

Lemma ws_log_add_propagates e now src knd ttl det :
  propagates Ws.out e (Ws.log_add e now src knd ttl det).
Proof.
  intros s. eexists. split.
  - unfold Ws.log_add. run_py. destruct (log_accepts e _); reflexivity.
  - unfold Ws.log_add. run_py. cbn [existsb rejected orb].
    destruct (log_accepts e _); [discriminate|reflexivity].
Qed.

Ltac propagate :=
  repeat first
    [ apply gui_log_add_propagates
    | apply ws_log_add_propagates
    | apply gui_emit_propagates; reflexivity
    | apply ws_emit_propagates; reflexivity
    | apply propagates_ret
    | apply propagates_raise
    | apply propagates_when
    | apply propagates_for_each; intros
    | apply propagates_bind; [|intros]
    | match goal with
      | |- propagates _ _ (if ?b then _ else _) => destruct b
      | |- propagates _ _ (match ?x with _ => _ end) => destruct x
      end ].

Lemma gui_handle_propagates e now kind payload :
  propagates Gui.out e (Gui.handle e now kind payload).
Proof.
  unfold Gui.handle, Gui.classify, Gui.event_type, Gui.handle_snapshot, Gui.snapshot_item,
    Gui.handle_update, Gui.maybe_flag_offline, Gui.handle_alert, Gui.alert_text,
    Gui.handle_error, as_dict, as_key.
  propagate;
    try (apply propagates_quiet; intros [devs oks o]; run_py;
         try match goal with |- context [match ?m !! ?k with _ => _ end] =>
               destruct (m !! k) end; reflexivity).
Qed.

Lemma ws_handle_event_propagates e now payload :
  propagates Ws.out e (Ws.handle_event e now payload).
Proof.
  unfold Ws.handle_event, Ws.handle_update, Ws.handle_alert, Ws.alert_text,
    Ws.handle_error, as_dict, as_key.
  propagate; try (apply propagates_quiet; intros [oks o]; reflexivity).
Qed.




(** ** Reading the serial of a single-device message *)

(** Whatever the hint, the state and the database, the device map of the
    desktop program has an entry under the key of the serial afterwards. *)
Lemma gui_update_keeps_device e now evt k h (s : Gui.state) :
  Gui.device_update evt k h ->
  is_Some (Gui.devices (snd (Gui.handle e now "event" (JObj evt) s)) !! k).
Proof.
  intros Hupd.
  destruct (gui_device_update_inv _ _ _ Hupd) as (Hu & Ht & Hk & props & Hp & Hh).
  rewrite (gui_handle_is_update _ _ _ _ Hu).
  unfold Gui.handle_update, Gui.maybe_flag_offline.
  rewrite Hp. destruct s as [devs oks o]. run_py. rewrite Ht, Hk. run_py.
  destruct (devs !! k) as [[nm [[|]|] le]|] eqn:Hd; run_py;
    destruct (online_hint props); run_py;
    try (destruct (log_accepts e _); run_py);
    rewrite ?insert_insert_eq, ?lookup_insert_eq;
    try (destruct (oks !! k) as [t|]; run_py);
    try match goal with |- context [(?a >? ?b)%Z] => destruct (a >? b)%Z; run_py end;
    rewrite ?insert_insert_eq, ?lookup_insert_eq; run_py;
    try (destruct (log_accepts e _); run_py);
    cbn [snd]; rewrite ?insert_insert_eq, ?lookup_insert_eq; eauto.
Qed.

(** A single-device message without a serial touches nothing. *)
Lemma gui_update_without_serial e now evt (s : Gui.state) :
  Gui.is_update evt = true ->
  truthy (Gui.update_serial evt) = false ->
  is_Some (Gui.hint_of evt) ->
  Gui.handle e now "event" (JObj evt) s = (Ok tt, s).
Proof.
  intros Hu Ht [h Hh]. rewrite (gui_handle_is_update _ _ _ _ Hu).
  unfold Gui.handle_update, Gui.maybe_flag_offline, Gui.hint_of in *.
  destruct (Gui.update_props evt); try discriminate.
  run_py. rewrite Ht. reflexivity.
Qed.

(** C7 fails as stated: in a message with both [serial_number] "A" and
    [device_sn] "B" both programs read "B", and the desktop program files
    the device under "B"; a message with only [station_sn] has no serial,
    and the desktop program does nothing with it. *)
Lemma device_sn_precedes_serial_number :
  Gui.update_serial Sample.two_serials = JStr "B" /\
  Ws.update_serial Sample.two_serials = JStr "B" /\
  Gui.update_serial Sample.station_only = JNull /\
  Ws.update_serial Sample.station_only = JNull /\
  (exists s',
     Gui.handle Sample.cfg60 0 "event" (JObj Sample.two_serials) Gui.init = (Ok tt, s') /\
     Gui.devices s' !! KStr "A" = None /\
     Gui.devices s' !! KStr "B" = Some (Gui.Device (JStr "B") (Some false) None)) /\
  Gui.handle Sample.cfg60 0 "event" (JObj Sample.station_only) Gui.init = (Ok tt, Gui.init).
Proof.
  repeat split; try reflexivity.
  eexists. split; [vm_compute; reflexivity|]. split; reflexivity.
Qed.

(** C7 (amended).  The serial of a single-device message is read, in both
    programs, from [device_sn], then [serial_number], then [device_id], the
    first of them that is truthy: [device_sn] wins over [serial_number] when
    both are given, and [station_sn] is not read.  The desktop program files
    the device under the key of that serial, and does nothing when there
    is none. *)
Theorem update_serial_fallbacks evt :
  Ws.update_serial evt = Gui.update_serial evt /\
  (truthy (dict_get evt "device_sn") = true ->
   Gui.update_serial evt = dict_get evt "device_sn") /\
  (truthy (dict_get evt "device_sn") = false ->
   truthy (dict_get evt "serial_number") = true ->
   Gui.update_serial evt = dict_get evt "serial_number") /\
  (truthy (dict_get evt "device_sn") = false ->
   truthy (dict_get evt "serial_number") = false ->
   Gui.update_serial evt = dict_get evt "device_id") /\
  (forall e now k h (s : Gui.state),
     Gui.device_update evt k h ->
     is_Some (Gui.devices (snd (Gui.handle e now "event" (JObj evt) s)) !! k)) /\
  (forall e now (s : Gui.state),
     Gui.is_update evt = true ->
     truthy (Gui.update_serial evt) = false ->
     is_Some (Gui.hint_of evt) ->
     Gui.handle e now "event" (JObj evt) s = (Ok tt, s)).
Proof.
  split; [reflexivity|].
  split; [intros H; unfold Gui.update_serial, por; rewrite !H; reflexivity|].
  split; [intros H1 H2; unfold Gui.update_serial, por; rewrite H1, H2; reflexivity|].
  split; [intros H1 H2; unfold Gui.update_serial, por; rewrite H1, H2; reflexivity|].
  split.
  - intros. apply gui_update_keeps_device with (h := h). assumption.
  - intros. apply gui_update_without_serial; assumption.
Qed.

(** ** Letter case of the type *)

Lemma lower_ascii_idempotent c : lower_ascii (lower_ascii c) = lower_ascii c.
Proof. destruct c as [[] [] [] [] [] [] [] []]; reflexivity. Qed.

Lemma lower_idempotent s : lower (lower s) = lower s.
Proof.
  induction s as [|c s IH]; [reflexivity|].
  cbn [lower]. rewrite lower_ascii_idempotent, IH. reflexivity.
Qed.

(** A type the headless program recognises is written in lower case. *)
Lemma ws_recognised_is_lower evt ty kinds :
  dict_get evt "type" = JStr ty ->
  kinds = alert_kinds \/ kinds = update_kinds \/ kinds = error_kinds ->
  Ws.type_in evt kinds = true ->
  lower ty = ty.
Proof.
  intros Hty Hkinds. unfold Ws.type_in, in_strs. rewrite Hty.
  destruct Hkinds as [-> | [-> | ->]]; cbn [existsb alert_kinds update_kinds error_kinds];
    intros H; repeat (apply orb_prop in H; destruct H as [H|H]); try discriminate;
    apply String.eqb_eq in H; subst ty; reflexivity.
Qed.

(** C8 fails as stated for the headless program, which compares the type as
    it is written: "EVENT" is not handled, "event" is. *)
Lemma ws_type_is_case_sensitive :
  Ws.handle_event Sample.cfg60 0 (JObj [("type", JStr "EVENT")]) Ws.init
    = (Ok tt, Ws.init) /\
  Ws.handle_event Sample.cfg60 0 (JObj [("type", JStr "event")]) Ws.init
    = (Ok tt,
       Ws.State ∅
         [Show (Text [Lit "Eufy: "; Fmt (JStr "event")])
               (Text [Fmt (JStr "Eufy"); Lit ": "; Fmt (JStr "")])
               (Text [Lit "evt_"; Fmt (JStr "Eufy"); Lit "_"; Fmt (JStr "event")]);
          LogAdd (Incident 0 (Val (JStr "Eufy")) "alert" (Val (JStr "event"))
                           (Val (JStr "")))]).
Proof. split; reflexivity. Qed.

(** C8 (amended).  The desktop program classifies a message by its type in
    lower case: a message and the same message with its type lowered are
    given to the same branch.  The headless program compares the type as
    written: a type that is not already in lower case is none of its kinds,
    and the message is dropped. *)
Theorem type_case_handling evt evt' ty :
  assoc "type" evt = Some (JStr ty) ->
  assoc "type" evt' = Some (JStr (lower ty)) ->
  (forall s, Gui.classify evt s = (Ok (Gui.select (lower ty)), s)) /\
  (forall s, Gui.classify evt' s = (Ok (Gui.select (lower ty)), s)) /\
  (lower ty <> ty ->
   forall e now (s : Ws.state), Ws.handle_event e now (JObj evt) s = (Ok tt, s)).
Proof.
  intros Hty Hty'. split; [|split].
  - intros s. unfold Gui.classify, Gui.event_type. rewrite Hty. reflexivity.
  - intros s. unfold Gui.classify, Gui.event_type. rewrite Hty'. run_py.
    rewrite lower_idempotent. reflexivity.
  - intros Hcase e now s.
    assert (Hget : dict_get evt "type" = JStr ty) by (unfold dict_get; rewrite Hty; reflexivity).
    apply ws_unrecognised_discarded.
    + destruct (Ws.type_in evt alert_kinds) eqn:H; [|reflexivity].
      exfalso. apply Hcase. apply (ws_recognised_is_lower evt ty alert_kinds Hget); auto.
    + destruct (Ws.type_in evt update_kinds) eqn:H; [|reflexivity].
      exfalso. apply Hcase. apply (ws_recognised_is_lower evt ty update_kinds Hget); auto.
    + destruct (Ws.type_in evt error_kinds) eqn:H; [|reflexivity].
      exfalso. apply Hcase. apply (ws_recognised_is_lower evt ty error_kinds Hget); auto.
Qed.

Lemma type_case_handling_device_update :
  (forall s, Gui.classify [("type", JStr "Device Update")] s = (Ok (Some Gui.Update), s)) /\
  (forall s, Gui.classify [("type", JStr "device update")] s = (Ok (Some Gui.Update), s)) /\
  (lower "Device Update" <> "Device Update" ->
   forall e now (s : Ws.state),
     Ws.handle_event e now (JObj [("type", JStr "Device Update")]) s = (Ok tt, s)).
Proof.
  apply (type_case_handling [("type", JStr "Device Update")]
           [("type", JStr "device update")] "Device Update"); reflexivity.
Defined.

(** ** The transport *)


(** * Further properties of the two programs *)

(** ** Walking through a handler with a relation on states *)

Section Steps.

Context {S : Type} (R : S -> S -> Prop) `{!Reflexive R, !Transitive R}.

Lemma steps_ret {A} (a : A) : steps R (ret a).
Proof. intros s. reflexivity. Qed.

Lemma steps_raise {A} (x : exn) : steps R (@raise S A x).
Proof. intros s. reflexivity. Qed.

Lemma steps_gets {A} (f : S -> A) : steps R (gets f).
Proof. intros s. reflexivity. Qed.

Lemma steps_bind {A B} (m : M S A) (k : A -> M S B) :
  steps R m -> (forall a, steps R (k a)) -> steps R (bind m k).
Proof.
  intros Hm Hk s. unfold bind. specialize (Hm s).
  destruct (m s) as [[a|x] s1]; cbn [snd] in *; [|exact Hm].
  etransitivity; [exact Hm|apply Hk].
Qed.

Lemma steps_when (b : bool) (m : M S unit) : steps R m -> steps R (when b m).
Proof. destruct b; [trivial|intros _; apply steps_ret]. Qed.

Lemma steps_for_each {A} (body : A -> M S unit) (l : list A) :
  (forall a, steps R (body a)) -> steps R (for_each body l).
Proof.
  intros Hbody. induction l as [|a l IH]; cbn [for_each].
  - apply steps_ret.
  - apply steps_bind; [apply Hbody|intros _; exact IH].
Qed.

End Steps.

Ltac walk_from whole leaf :=
  repeat first
    [ whole
    | apply steps_ret; exact _
    | apply steps_raise; exact _
    | apply steps_gets; exact _
    | apply steps_when; [exact _|]
    | apply steps_for_each; [exact _|exact _|intros]
    | apply steps_bind; [exact _| |intros]
    | leaf
    | match goal with
      | |- steps _ (if ?b then _ else _) => destruct b
      | |- steps _ (match ?x with _ => _ end) => destruct x
      end ].

Ltac walk leaf :=
  repeat first
    [ apply steps_ret; exact _
    | apply steps_raise; exact _
    | apply steps_gets; exact _
    | apply steps_when; [exact _|]
    | apply steps_for_each; [exact _|exact _|intros]
    | apply steps_bind; [exact _| |intros]
    | leaf
    | match goal with
      | |- steps _ (if ?b then _ else _) => destruct b
      | |- steps _ (match ?x with _ => _ end) => destruct x
      end ].

Ltac unfold_gui_handle :=
  unfold Gui.handle, Gui.classify, Gui.event_type, Gui.handle_snapshot, Gui.snapshot_item,
    Gui.handle_update, Gui.maybe_flag_offline, Gui.handle_alert, Gui.alert_text,
    Gui.handle_error, Gui.log_add, as_dict, as_key.

Ltac unfold_ws_handle :=
  unfold Ws.handle_event, Ws.handle_update, Ws.handle_alert, Ws.alert_text,
    Ws.handle_error, Ws.log_add, as_dict, as_key.

(** ** What a call of [handle] can do to the state *)

#[local] Instance gui_appends_refl P : Reflexive (Track.gui_appends P).
Proof. intros s. exists []. rewrite app_nil_r. split; reflexivity. Qed.

#[local] Instance gui_appends_trans P : Transitive (Track.gui_appends P).
Proof.
  intros a b c (n1 & H1 & P1) (n2 & H2 & P2). exists (n1 ++ n2). split.
  - rewrite H2, H1, app_assoc. reflexivity.
  - rewrite forallb_app, P1, P2. reflexivity.
Qed.

#[local] Instance gui_keeps_refl : Reflexive Track.gui_keeps.
Proof. intros s. split; reflexivity. Qed.

#[local] Instance gui_keeps_trans : Transitive Track.gui_keeps.
Proof. intros a b c [H1 H2] [H3 H4]. split; etransitivity; eassumption. Qed.

#[local] Instance seen_since_refl now : Reflexive (Track.seen_since now).
Proof. intros m. split; intros k t H; left; exact H. Qed.

#[local] Instance seen_since_trans now : Transitive (Track.seen_since now).
Proof.
  intros a b c [H1 H2] [H3 H4]. split; intros k t H.
  - destruct (H1 k t H) as [Hb|Hb]; [exact (H3 k t Hb)|].
    destruct (H3 k now Hb) as [Hc|Hc]; right; exact Hc.
  - destruct (H4 k t H) as [Hb|Hb]; [exact (H2 k t Hb)|right; exact Hb].
Qed.

#[local] Instance gui_seen_since_refl now : Reflexive (Track.gui_seen_since now).
Proof. intros s. unfold Track.gui_seen_since. reflexivity. Qed.

#[local] Instance gui_seen_since_trans now : Transitive (Track.gui_seen_since now).
Proof. intros a b c. unfold Track.gui_seen_since. apply seen_since_trans. Qed.

#[local] Instance ws_seen_since_refl now : Reflexive (Track.ws_seen_since now).
Proof. intros s. unfold Track.ws_seen_since. reflexivity. Qed.

#[local] Instance ws_seen_since_trans now : Transitive (Track.ws_seen_since now).
Proof. intros a b c. unfold Track.ws_seen_since. apply seen_since_trans. Qed.

Lemma seen_since_insert now (m : gmap hkey Z) k :
  Track.seen_since now m (<[k := now]> m).
Proof.
  split; intros k' t H.
  - destruct (decide (k = k')) as [->|Hne].
    + right. apply lookup_insert_eq.
    + left. rewrite lookup_insert_ne by exact Hne. exact H.
  - destruct (decide (k = k')) as [->|Hne].
    + rewrite lookup_insert_eq in H. right. congruence.
    + rewrite lookup_insert_ne in H by exact Hne. left. exact H.
Qed.

Lemma gui_emit_appends (P : effect -> bool) x :
  P x = true -> steps (Track.gui_appends P) (Gui.emit x).
Proof.
  intros Hx s. exists [x]. split; [reflexivity|]. cbn [forallb]. rewrite Hx. reflexivity.
Qed.

Lemma gui_quiet_appends {A} (P : effect -> bool) (m : M Gui.state A) :
  (forall s, Gui.out (snd (m s)) = Gui.out s) -> steps (Track.gui_appends P) m.
Proof. intros H s. exists []. rewrite app_nil_r. split; [apply H|reflexivity]. Qed.

Ltac gui_quiet :=
  apply gui_quiet_appends; intros [devs oks o]; run_py;
  try match goal with |- context [match ?m !! ?k with _ => _ end] => destruct (m !! k) end;
  reflexivity.

Lemma gui_handle_appends e now kind payload :
  steps (Track.gui_appends (fun _ => true)) (Gui.handle e now kind payload).
Proof.
  unfold_gui_handle.
  walk ltac:(first [apply gui_emit_appends; reflexivity | gui_quiet]).
Qed.

Lemma gui_handle_keeps_steps e now kind payload :
  steps Track.gui_keeps (Gui.handle e now kind payload).
Proof.
  unfold_gui_handle.
  walk ltac:(intros [devs oks o]; unfold Track.gui_keeps; run_py;
             try match goal with |- context [match ?m !! ?k with _ => _ end] =>
                   destruct (m !! k) end;
             cbn [snd Gui.devices Gui.device_last_ok];
             rewrite ?dom_insert_L; split; set_solver).
Qed.

(** X1.  Whatever the message, and whether [handle] returns or raises: no
    device and no last-seen time is removed, and the calls made before are
    all kept, the new ones coming after them. *)
Theorem gui_handle_never_forgets e now kind payload (s : Gui.state) :
  dom (Gui.devices s) ⊆ dom (Gui.devices (snd (Gui.handle e now kind payload s))) /\
  dom (Gui.device_last_ok s)
    ⊆ dom (Gui.device_last_ok (snd (Gui.handle e now kind payload s))) /\
  exists new, Gui.out (snd (Gui.handle e now kind payload s)) = Gui.out s ++ new.
Proof.
  destruct (gui_handle_keeps_steps e now kind payload s) as [Hd Hl].
  destruct (gui_handle_appends e now kind payload s) as (new & Hout & _).
  split; [exact Hd|]. split; [exact Hl|]. exists new. exact Hout.
Qed.

(** The branch [handle] takes for a message of a given kind. *)
Lemma gui_handle_branch e now evt b (s : Gui.state) :
  Raised.gui_kind evt b ->
  Gui.handle e now "event" (JObj evt) s =
    match b with
    | Gui.Snapshot => Gui.handle_snapshot now evt s
    | Gui.Update => Gui.handle_update e now evt s
    | Gui.Alert => Gui.handle_alert e now evt s
    | Gui.Error => Gui.handle_error e now evt s
    end.
Proof.
  intros (ty & Hty & Hsel). unfold Gui.handle, Gui.classify, Gui.event_type.
  cbn [String.eqb Ascii.eqb Bool.eqb negb]. run_py. rewrite Hty. run_py. rewrite Hsel.
  destruct b; reflexivity.
Qed.

Ltac gui_last_ok_leaf :=
  intros [devs oks o]; unfold Track.gui_seen_since; run_py;
  try match goal with |- context [match ?m !! ?k with _ => _ end] => destruct (m !! k) end;
  cbn [snd Gui.device_last_ok];
  first [reflexivity | apply seen_since_insert].

Lemma gui_handle_seen_since e now kind payload :
  steps (Track.gui_seen_since now) (Gui.handle e now kind payload).
Proof. unfold_gui_handle. walk gui_last_ok_leaf. Qed.

Ltac ws_last_ok_leaf :=
  intros [oks o]; unfold Track.ws_seen_since; run_py;
  cbn [snd Ws.device_last_ok];
  first [reflexivity | apply seen_since_insert].

Lemma ws_handle_event_seen_since e now payload :
  steps (Track.ws_seen_since now) (Ws.handle_event e now payload).
Proof. unfold_ws_handle. unfold Ws.emit, Ws.set_last_ok. walk ws_last_ok_leaf. Qed.

Lemma seen_since_bound now (old new : gmap hkey Z) :
  Track.seen_since now old new ->
  (forall k t, old !! k = Some t -> (t <= now)%Z) ->
  (forall k t, old !! k = Some t -> exists t', new !! k = Some t' /\ (t <= t')%Z) /\
  (forall k t, new !! k = Some t -> (t <= now)%Z).
Proof.
  intros [Hkeep Hnew] Hold. split.
  - intros k t Hk. destruct (Hkeep k t Hk) as [H|H]; eexists; (split; [exact H|]).
    + lia.
    + exact (Hold k t Hk).
  - intros k t Hk. destruct (Hnew k t Hk) as [H| ->]; [exact (Hold k t H)|lia].
Qed.

(** X2.  In the desktop program last-seen times never go back: if none of
    them is later than the clock reading [now] at which a message is
    handled, then afterwards every device that had a last-seen time still
    has one, not earlier than before, and none is later than [now]; this
    whatever the message and whether [handle] returns or raises. *)
Theorem gui_last_seen_never_goes_back e now kind payload (s : Gui.state) :
  (forall k t, Gui.device_last_ok s !! k = Some t -> (t <= now)%Z) ->
  (forall k t, Gui.device_last_ok s !! k = Some t ->
     exists t', Gui.device_last_ok (snd (Gui.handle e now kind payload s)) !! k = Some t' /\
                (t <= t')%Z) /\
  (forall k t, Gui.device_last_ok (snd (Gui.handle e now kind payload s)) !! k = Some t ->
     (t <= now)%Z).
Proof.
  intros Hold. apply seen_since_bound; [|exact Hold].
  apply (gui_handle_seen_since e now kind payload s).
Qed.

Lemma gui_last_seen_never_goes_back_cam :
  (forall k t, Gui.device_last_ok (Sample.gui_cam (Some true) 1000) !! k = Some t ->
     exists t',
       Gui.device_last_ok
         (snd (Gui.handle Sample.cfg60 1061 "event" (JObj (Sample.update "S1" true))
                 (Sample.gui_cam (Some true) 1000))) !! k = Some t' /\
       (t <= t')%Z) /\
  (forall k t,
     Gui.device_last_ok
       (snd (Gui.handle Sample.cfg60 1061 "event" (JObj (Sample.update "S1" true))
               (Sample.gui_cam (Some true) 1000))) !! k = Some t ->
     (t <= 1061)%Z).
Proof.
  apply (gui_last_seen_never_goes_back Sample.cfg60 1061 "event"
           (JObj (Sample.update "S1" true)) (Sample.gui_cam (Some true) 1000)).
  intros k t H. unfold Sample.gui_cam in H. cbn [Gui.device_last_ok] in H.
  apply lookup_singleton_Some in H. destruct H as [_ <-]. lia.
Defined.

(** X3.  The same in the headless program: handling a message at [now]
    keeps every recorded last-seen time or moves it forward to [now]. *)
Theorem ws_last_seen_never_goes_back e now payload (s : Ws.state) :
  (forall k t, Ws.device_last_ok s !! k = Some t -> (t <= now)%Z) ->
  (forall k t, Ws.device_last_ok s !! k = Some t ->
     exists t', Ws.device_last_ok (snd (Ws.handle_event e now payload s)) !! k = Some t' /\
                (t <= t')%Z) /\
  (forall k t, Ws.device_last_ok (snd (Ws.handle_event e now payload s)) !! k = Some t ->
     (t <= now)%Z).
Proof.
  intros Hold. apply seen_since_bound; [|exact Hold].
  apply (ws_handle_event_seen_since e now payload s).
Qed.

Lemma ws_last_seen_never_goes_back_cam :
  (forall k t, Ws.device_last_ok (Sample.ws_cam 1000) !! k = Some t ->
     exists t',
       Ws.device_last_ok
         (snd (Ws.handle_event Sample.cfg60 1061 (JObj (Sample.update "S1" true))
                 (Sample.ws_cam 1000))) !! k = Some t' /\
       (t <= t')%Z) /\
  (forall k t,
     Ws.device_last_ok
       (snd (Ws.handle_event Sample.cfg60 1061 (JObj (Sample.update "S1" true))
               (Sample.ws_cam 1000))) !! k = Some t ->
     (t <= 1061)%Z).
Proof.
  apply (ws_last_seen_never_goes_back Sample.cfg60 1061
           (JObj (Sample.update "S1" true)) (Sample.ws_cam 1000)).
  intros k t H. unfold Sample.ws_cam in H. cbn [Ws.device_last_ok] in H.
  apply lookup_singleton_Some in H. destruct H as [_ <-]. lia.
Defined.

(** ** Device and station lists *)

Lemma gui_snapshot_appends now evt :
  steps (Track.gui_appends is_gui_device) (Gui.handle_snapshot now evt).
Proof.
  unfold Gui.handle_snapshot, Gui.snapshot_item, as_dict, as_key.
  walk ltac:(first [apply gui_emit_appends; reflexivity | gui_quiet]).
Qed.

(** X4.  A device or station list never leads to a record or a
    notification: whatever its [data], also when [handle] raises on it, the
    only calls made are device updates for the GUI. *)
Theorem gui_snapshot_only_updates_gui e now evt (s : Gui.state) :
  Raised.gui_kind evt Gui.Snapshot ->
  exists new,
    Gui.out (snd (Gui.handle e now "event" (JObj evt) s)) = Gui.out s ++ new /\
    forallb is_gui_device new = true.
Proof.
  intros Hkind. rewrite (gui_handle_branch e now evt Gui.Snapshot s Hkind).
  apply (gui_snapshot_appends now evt s).
Qed.

Lemma gui_snapshot_only_updates_gui_one :
  exists new,
    Gui.out (snd (Gui.handle Sample.cfg60 0 "event"
                    (JObj [("type", JStr "devices");
                           ("data", JArr [JObj [("serial_number", JStr "S1");
                                                ("name", JStr "Cam1");
                                                ("online", JBool true)]])])
                    Gui.init)) = Gui.out Gui.init ++ new /\
    forallb is_gui_device new = true.
Proof.
  apply (gui_snapshot_only_updates_gui Sample.cfg60 0
           [("type", JStr "devices");
            ("data", JArr [JObj [("serial_number", JStr "S1"); ("name", JStr "Cam1");
                                 ("online", JBool true)]])] Gui.init).
  exists "devices". split; reflexivity.
Defined.

(** One usable item: its entry replaces whatever was filed under its key,
    its last-seen time is refreshed when it is online, and the GUI is
    told. *)
Lemma gui_snapshot_item_usable now item k (s : Gui.state) :
  Listed.key item = Some k ->
  Gui.snapshot_item now item s =
    (Ok tt,
     Gui.State (<[k := Listed.entry item]> (Gui.devices s))
               (if Listed.is_online item then <[k := now]> (Gui.device_last_ok s)
                else Gui.device_last_ok s)
               (Gui.out s ++ [Listed.shown item])).
Proof.
  destruct item as [| | | | |d]; try discriminate. cbn [Listed.key]. intros Hk.
  unfold Gui.snapshot_item, Listed.serial in *. destruct s as [devs oks o]. run_py.
  rewrite Hk. run_py.
  unfold Listed.is_online, Listed.entry, Listed.shown, Listed.name, Listed.serial,
    Listed.online.
  destruct (in_strs (dict_get d "state") online_states || truthy (dict_get d "online"));
    reflexivity.
Qed.

(** A list of usable items is gone through to its end: the calls made are
    the device updates of the items, in order, every key of an item is in
    the device map afterwards, and no device already there is lost. *)
Lemma gui_snapshot_items now items :
  forallb Listed.usable items = true ->
  forall s : Gui.state,
    fst (for_each (Gui.snapshot_item now) items s) = Ok tt /\
    Gui.out (snd (for_each (Gui.snapshot_item now) items s))
      = Gui.out s ++ map Listed.shown items /\
    (forall k, (k ∈ dom (Gui.devices s) \/ exists item, In item items /\ Listed.key item = Some k) ->
               k ∈ dom (Gui.devices (snd (for_each (Gui.snapshot_item now) items s)))).
Proof.
  induction items as [|item items IH]; intros Husable s.
  - cbn. rewrite app_nil_r. repeat split. intros k [Hk|(item & [] & _)]. exact Hk.
  - cbn [forallb] in Husable. apply andb_prop in Husable. destruct Husable as [Hitem Hrest].
    unfold Listed.usable in Hitem. destruct (Listed.key item) as [k0|] eqn:Hk0; [|discriminate].
    cbn [for_each]. unfold bind. rewrite (gui_snapshot_item_usable now item k0 s Hk0).
    destruct (IH Hrest
      (Gui.State (<[k0 := Listed.entry item]> (Gui.devices s))
         (if Listed.is_online item then <[k0 := now]> (Gui.device_last_ok s)
          else Gui.device_last_ok s)
         (Gui.out s ++ [Listed.shown item]))) as (Hok & Hout & Hdom).
    split; [exact Hok|]. split.
    + rewrite Hout. cbn [Gui.out map]. rewrite <- app_assoc. reflexivity.
    + intros k Hk. apply Hdom. cbn [Gui.devices]. rewrite dom_insert_L.
      destruct Hk as [Hk|(it & [<-|Hin] & Hit)].
      * left. apply elem_of_union. right. exact Hk.
      * left. assert (k = k0) by congruence. subst k.
        apply elem_of_union. left. apply elem_of_singleton. reflexivity.
      * right. exists it. split; assumption.
Qed.

(** X5.  A "devices" or "stations" message whose items are all dicts with
    a hashable serial is handled to its end without exception: one device
    update per item goes to the GUI, in the order of the list, and every
    listed serial is a key of the device map afterwards.  (An absent or
    falsy [data] is the empty list.) *)
Theorem gui_snapshot_lists_every_device e now evt items (s : Gui.state) :
  Listed.lists evt items ->
  forallb Listed.usable items = true ->
  fst (Gui.handle e now "event" (JObj evt) s) = Ok tt /\
  Gui.out (snd (Gui.handle e now "event" (JObj evt) s)) = Gui.out s ++ map Listed.shown items /\
  (forall item k, In item items -> Listed.key item = Some k ->
     k ∈ dom (Gui.devices (snd (Gui.handle e now "event" (JObj evt) s)))).
Proof.
  intros [Hkind Hdata] Husable.
  rewrite (gui_handle_branch e now evt Gui.Snapshot s Hkind).
  unfold Gui.handle_snapshot. rewrite Hdata.
  destruct (gui_snapshot_items now items Husable s) as (Hok & Hout & Hdom).
  split; [exact Hok|]. split; [exact Hout|].
  intros item k Hin Hk. apply Hdom. right. exists item. split; assumption.
Qed.

Lemma gui_snapshot_lists_every_device_two :
  fst (Gui.handle Sample.cfg60 0 "event" (JObj Sample.two_devices) Gui.init) = Ok tt /\
  Gui.out (snd (Gui.handle Sample.cfg60 0 "event" (JObj Sample.two_devices) Gui.init))
    = Gui.out Gui.init ++ map Listed.shown Sample.two_items /\
  (forall item k, In item Sample.two_items -> Listed.key item = Some k ->
     k ∈ dom (Gui.devices
                (snd (Gui.handle Sample.cfg60 0 "event" (JObj Sample.two_devices) Gui.init)))).
Proof.
  apply (gui_snapshot_lists_every_device Sample.cfg60 0 Sample.two_devices
           Sample.two_items Gui.init).
  - split; [exists "devices"; split; reflexivity|reflexivity].
  - reflexivity.
Defined.



(** ** The offline record in the desktop program *)

Lemma gui_update_no_offline_record e now evt :
  (0 <= offline_grace_seconds e)%Z ->
  steps (Track.gui_appends not_offline_record) (Gui.handle_update e now evt).
Proof.
  intros Hgrace [devs oks o]. unfold Track.gui_appends.
  unfold Gui.handle_update, Gui.maybe_flag_offline.
  destruct (Gui.update_props evt) as [| | | | |props]; run_py;
    try (exists []; rewrite app_nil_r; split; reflexivity).
  destruct (truthy (Gui.update_serial evt)); run_py;
    [|exists []; rewrite app_nil_r; split; reflexivity].
  destruct (to_key (Gui.update_serial evt)) as [k|]; run_py;
    [|exists []; rewrite app_nil_r; split; reflexivity].
  destruct (devs !! k) as [[nm [[|]|] le]|] eqn:Hd; run_py;
    destruct (online_hint props); run_py;
    try (destruct (log_accepts e _); run_py);
    rewrite ?insert_insert_eq, ?lookup_insert_eq, ?Z.sub_diag;
    try (destruct (oks !! k) as [t|]; run_py);
    try match goal with
        | |- context [(0 >? offline_grace_seconds e)%Z] =>
            destruct (0 >? offline_grace_seconds e)%Z eqn:Hgt; [lia|]
        | |- context [(?a >? ?b)%Z] => destruct (a >? b)%Z
        end;
    run_py; rewrite ?insert_insert_eq, ?lookup_insert_eq; run_py;
    cbn [snd Gui.out]; rewrite <- ?app_assoc;
    first [ exists []; rewrite app_nil_r; split; reflexivity
          | eexists; split; reflexivity ].
Qed.

Lemma gui_handle_no_offline_record e now kind payload :
  (0 <= offline_grace_seconds e)%Z ->
  steps (Track.gui_appends not_offline_record) (Gui.handle e now kind payload).
Proof.
  intros Hgrace.
  unfold Gui.handle, Gui.classify, Gui.event_type, Gui.handle_snapshot, Gui.snapshot_item,
    Gui.handle_alert, Gui.alert_text, Gui.handle_error, Gui.log_add, as_dict, as_key.
  walk_from ltac:(apply gui_update_no_offline_record; exact Hgrace)
            ltac:(first [apply gui_emit_appends; reflexivity | gui_quiet]).
Qed.



(** ** Alerts and errors *)

(** X8.  In the desktop program an alert that names a device counts as a
    sign of life: the device's last-seen time becomes [now] and its last
    event the alert, a device not known yet is entered as online under the
    alert's name, and a known device keeps its name and its online state (a
    device marked offline stays so).  The GUI is told about the device and
    the alert, the notification is asked for and the alert recorded, in this
    order. *)
Theorem gui_alert_refreshes_device e now evt k text (s : Gui.state) :
  Raised.gui_kind evt Gui.Alert ->
  (forall s0, Gui.alert_text evt s0 = (Ok text, s0)) ->
  truthy (Raised.serial evt) = true ->
  to_key (Raised.serial evt) = Some k ->
  log_accepts e (Raised.alert_row now evt text) = true ->
  Gui.handle e now "event" (JObj evt) s =
    (Ok tt,
     Gui.State
       (<[k := Raised.alerted evt text (Gui.devices s !! k)]> (Gui.devices s))
       (<[k := now]> (Gui.device_last_ok s))
       (Gui.out s ++
        [GuiDevice (Raised.serial evt)
           (Gui.name (Raised.alerted evt text (Gui.devices s !! k)))
           (Gui.online (Raised.alerted evt text (Gui.devices s !! k)))
           (Raised.last_event evt text);
         Raised.alert_log now evt text;
         Raised.alert_show evt text;
         LogAdd (Raised.alert_row now evt text)])).
Proof.
  intros Hkind Htext Ht Hk Hlog.
  rewrite (gui_handle_branch e now evt Gui.Alert s Hkind).
  unfold Gui.handle_alert. unfold bind at 1. rewrite Htext.
  unfold Raised.alert_row, Raised.serial, Raised.name, Raised.action in *.
  unfold Raised.alerted, Raised.alert_log, Raised.alert_show, Raised.last_event,
    Raised.name, Raised.action.
  destruct s as [devs oks o]. run_py. rewrite Ht, Hk. run_py.
  destruct (devs !! k) as [[nm on le]|]; run_py; rewrite Hlog; run_py;
    rewrite ?insert_insert_eq, <- !app_assoc; reflexivity.
Qed.

Lemma gui_alert_refreshes_device_motion :
  Gui.handle Sample.cfg60 2000 "event" (JObj Sample.motion) (Sample.gui_cam (Some false) 1000) =
    (Ok tt,
     Gui.State
       (<[KStr "S1" := Raised.alerted Sample.motion (JStr "seen")
                         (Gui.devices (Sample.gui_cam (Some false) 1000) !! KStr "S1")]>
          (Gui.devices (Sample.gui_cam (Some false) 1000)))
       (<[KStr "S1" := 2000%Z]> (Gui.device_last_ok (Sample.gui_cam (Some false) 1000)))
       (Gui.out (Sample.gui_cam (Some false) 1000) ++
        [GuiDevice (Raised.serial Sample.motion)
           (Gui.name (Raised.alerted Sample.motion (JStr "seen")
                        (Gui.devices (Sample.gui_cam (Some false) 1000) !! KStr "S1")))
           (Gui.online (Raised.alerted Sample.motion (JStr "seen")
                          (Gui.devices (Sample.gui_cam (Some false) 1000) !! KStr "S1")))
           (Raised.last_event Sample.motion (JStr "seen"));
         Raised.alert_log 2000 Sample.motion (JStr "seen");
         Raised.alert_show Sample.motion (JStr "seen");
         LogAdd (Raised.alert_row 2000 Sample.motion (JStr "seen"))])).
Proof.
  apply (gui_alert_refreshes_device Sample.cfg60 2000 Sample.motion (KStr "S1")
           (JStr "seen") (Sample.gui_cam (Some false) 1000)).
  - exists "event". split; reflexivity.
  - intros s0. reflexivity.
  - reflexivity.
  - reflexivity.
  - reflexivity.
Defined.

(** The kinds the headless program tells apart exclude one another. *)
Lemma ws_type_in_error evt :
  Ws.type_in evt error_kinds = true ->
  Ws.type_in evt alert_kinds = false /\ Ws.type_in evt update_kinds = false.
Proof.
  unfold Ws.type_in, in_strs. destruct (dict_get evt "type") as [| | |ty| |]; try discriminate.
  cbn [existsb update_kinds alert_kinds error_kinds]. intros H.
  repeat (apply orb_prop in H; destruct H as [H|H]); try discriminate;
    apply String.eqb_eq in H; subst ty; split; reflexivity.
Qed.

Lemma ws_type_in_alert evt :
  Ws.type_in evt alert_kinds = true ->
  Ws.type_in evt update_kinds = false /\ Ws.type_in evt error_kinds = false.
Proof.
  unfold Ws.type_in, in_strs. destruct (dict_get evt "type") as [| | |ty| |]; try discriminate.
  cbn [existsb update_kinds alert_kinds error_kinds]. intros H.
  repeat (apply orb_prop in H; destruct H as [H|H]); try discriminate;
    apply String.eqb_eq in H; subst ty; split; reflexivity.
Qed.

(** A type the headless program takes for one of its kinds is taken for the
    same kind by the desktop program. *)
Lemma ws_kind_is_gui_kind evt kinds b :
  (kinds = alert_kinds /\ b = Gui.Alert \/
   kinds = update_kinds /\ b = Gui.Update \/
   kinds = error_kinds /\ b = Gui.Error) ->
  Ws.type_in evt kinds = true ->
  Raised.gui_kind evt b.
Proof.
  unfold Ws.type_in, in_strs, dict_get, Raised.gui_kind.
  destruct (assoc "type" evt) as [[| | |ty| |]|]; try discriminate.
  intros [[-> ->] | [[-> ->] | [-> ->]]];
    cbn [existsb update_kinds alert_kinds error_kinds]; intros H;
    repeat (apply orb_prop in H; destruct H as [H|H]); try discriminate;
    apply String.eqb_eq in H; subst ty; eexists; split; reflexivity.
Qed.

(** X9.  An error message changes nothing of what either program knows of
    the devices: the notification (keyed by the source) is asked for and
    the error recorded, and the handler returns unless the database rejects
    the record. *)
Theorem error_leaves_devices_alone e now evt (s : Gui.state) (s' : Ws.state) :
  Ws.type_in evt error_kinds = true ->
  Gui.handle e now "event" (JObj evt) s =
    (if log_accepts e (Raised.error_row now evt) then Ok tt else Raise DatabaseError,
     Gui.State (Gui.devices s) (Gui.device_last_ok s)
       (Gui.out s ++
        [GuiLog (Text [Stamp now; Lit "  [ERROR] "; Fmt (Raised.name evt); Lit ": ";
                       if truthy (dict_get evt "message")
                       then Fmt (dict_get evt "message") else Fmt (JObj evt)]);
         Raised.error_show evt;
         LogAdd (Raised.error_row now evt)])) /\
  Ws.handle_event e now (JObj evt) s' =
    (if log_accepts e (Raised.error_row now evt) then Ok tt else Raise DatabaseError,
     Ws.State (Ws.device_last_ok s')
       (Ws.out s' ++ [Raised.error_show evt; LogAdd (Raised.error_row now evt)])).
Proof.
  intros Hkind. split.
  - rewrite (gui_handle_branch e now evt Gui.Error s).
    + unfold Gui.handle_error, Raised.error_row, Raised.error_show, Raised.error_msg,
        Raised.name.
      destruct s as [devs oks o]. run_py.
      destruct (log_accepts e _); rewrite <- !app_assoc; reflexivity.
    + apply (ws_kind_is_gui_kind evt error_kinds); [auto|exact Hkind].
  - destruct (ws_type_in_error evt Hkind) as [Ha Hu].
    unfold Ws.handle_event. run_py. rewrite Ha, Hu, Hkind.
    unfold Ws.handle_error, Raised.error_row, Raised.error_show, Raised.error_msg,
      Raised.name.
    destruct s' as [oks o]. run_py.
    destruct (log_accepts e _); rewrite <- !app_assoc; reflexivity.
Qed.

Lemma error_leaves_devices_alone_boom :
  Gui.handle Sample.cfg60 7 "event" (JObj Sample.error_message) (Sample.gui_cam (Some true) 0) =
    (if log_accepts Sample.cfg60 (Raised.error_row 7 Sample.error_message)
     then Ok tt else Raise DatabaseError,
     Gui.State (Gui.devices (Sample.gui_cam (Some true) 0))
       (Gui.device_last_ok (Sample.gui_cam (Some true) 0))
       (Gui.out (Sample.gui_cam (Some true) 0) ++
        [GuiLog (Text [Stamp 7; Lit "  [ERROR] "; Fmt (Raised.name Sample.error_message);
                       Lit ": ";
                       if truthy (dict_get Sample.error_message "message")
                       then Fmt (dict_get Sample.error_message "message")
                       else Fmt (JObj Sample.error_message)]);
         Raised.error_show Sample.error_message;
         LogAdd (Raised.error_row 7 Sample.error_message)])) /\
  Ws.handle_event Sample.cfg60 7 (JObj Sample.error_message) (Sample.ws_cam 0) =
    (if log_accepts Sample.cfg60 (Raised.error_row 7 Sample.error_message)
     then Ok tt else Raise DatabaseError,
     Ws.State (Ws.device_last_ok (Sample.ws_cam 0))
       (Ws.out (Sample.ws_cam 0) ++
        [Raised.error_show Sample.error_message;
         LogAdd (Raised.error_row 7 Sample.error_message)])).
Proof.
  apply (error_leaves_devices_alone Sample.cfg60 7 Sample.error_message
           (Sample.gui_cam (Some true) 0) (Sample.ws_cam 0)).
  reflexivity.
Defined.

(** X10.  An alert without message whose [data] is present but is [null]
    (or another falsy value that is not a dict) is read differently by the
    two programs: the desktop program takes the empty text, the headless
    one raises [AttributeError] before anything is called. *)
Theorem alert_with_null_data e now evt v (s : Gui.state) (s' : Ws.state) :
  Ws.type_in evt alert_kinds = true ->
  truthy (dict_get evt "message") = false ->
  assoc "data" evt = Some v ->
  truthy v = false ->
  v <> JObj [] ->
  Gui.alert_text evt s = (Ok (JStr ""), s) /\
  Ws.handle_event e now (JObj evt) s' = (Raise AttributeError, s').
Proof.
  intros Hkind Hmsg Hdata Hfalsy Hv. split.
  - assert (Hget : dict_get evt "data" = v) by (unfold dict_get; rewrite Hdata; reflexivity).
    unfold Gui.alert_text. rewrite Hmsg, Hget.
    unfold por at 1. rewrite Hfalsy. reflexivity.
  - unfold Ws.handle_event. run_py. rewrite Hkind.
    unfold Ws.handle_alert, Ws.alert_text. rewrite Hmsg, Hdata.
    destruct v as [| | | | |[|f fs]]; try reflexivity.
    + contradiction.
    + discriminate.
Qed.

Lemma alert_with_null_data_motion :
  Gui.alert_text [("type", JStr "event"); ("data", JNull)] Gui.init = (Ok (JStr ""), Gui.init) /\
  Ws.handle_event Sample.cfg60 0 (JObj [("type", JStr "event"); ("data", JNull)]) Ws.init
    = (Raise AttributeError, Ws.init).
Proof.
  apply (alert_with_null_data Sample.cfg60 0 [("type", JStr "event"); ("data", JNull)]
           JNull Gui.init Ws.init); try reflexivity.
  discriminate.
Defined.

(** ** Single-device messages: what they leave alone, and the malformed ones *)

(** X11.  In the desktop program a single-device message about one serial
    leaves every other device as it is: neither the entry nor the last-seen
    time of another key changes, whatever the hint and whether [handle]
    returns or raises. *)
Theorem gui_update_touches_one_device e now evt k k' (s : Gui.state) :
  Raised.gui_kind evt Gui.Update ->
  to_key (Gui.update_serial evt) = Some k ->
  k' <> k ->
  Gui.devices (snd (Gui.handle e now "event" (JObj evt) s)) !! k' = Gui.devices s !! k' /\
  Gui.device_last_ok (snd (Gui.handle e now "event" (JObj evt) s)) !! k'
    = Gui.device_last_ok s !! k'.
Proof.
  intros Hkind Hk Hne. assert (Hne' : k <> k') by congruence.
  rewrite (gui_handle_branch e now evt Gui.Update s Hkind).
  unfold Gui.handle_update, Gui.maybe_flag_offline. destruct s as [devs oks o].
  destruct (Gui.update_props evt) as [| | | | |props]; run_py; try (split; reflexivity).
  destruct (truthy (Gui.update_serial evt)); run_py; [|split; reflexivity].
  rewrite Hk. run_py.
  destruct (devs !! k) as [[nm [[|]|] le]|] eqn:Hd; run_py;
    destruct (online_hint props); run_py;
    try (destruct (log_accepts e _); run_py);
    rewrite ?insert_insert_eq, ?lookup_insert_eq;
    try (destruct (oks !! k) as [t|]; run_py);
    try match goal with |- context [(?a >? ?b)%Z] => destruct (a >? b)%Z; run_py end;
    rewrite ?insert_insert_eq, ?lookup_insert_eq; run_py;
    try (destruct (log_accepts e _); run_py);
    cbn [snd]; rewrite ?lookup_insert_ne by exact Hne'; split; reflexivity.
Qed.

Lemma gui_update_touches_one_device_cam :
  Gui.devices (snd (Gui.handle Sample.cfg60 5 "event" (JObj (Sample.update "S2" true))
                      (Sample.gui_cam (Some true) 0))) !! KStr "S1"
    = Gui.devices (Sample.gui_cam (Some true) 0) !! KStr "S1" /\
  Gui.device_last_ok (snd (Gui.handle Sample.cfg60 5 "event" (JObj (Sample.update "S2" true))
                             (Sample.gui_cam (Some true) 0))) !! KStr "S1"
    = Gui.device_last_ok (Sample.gui_cam (Some true) 0) !! KStr "S1".
Proof.
  apply (gui_update_touches_one_device Sample.cfg60 5 (Sample.update "S2" true)
           (KStr "S2") (KStr "S1") (Sample.gui_cam (Some true) 0)).
  - exists "device update". split; reflexivity.
  - reflexivity.
  - discriminate.
Defined.

(** X12.  A single-device message whose [properties] (or, without them,
    [data]) is a truthy value that is not a dict makes both programs raise
    [AttributeError] at [props.get] before any state is touched or any call
    made. *)
Theorem update_with_unreadable_properties e now evt (s : Gui.state) (s' : Ws.state) :
  Ws.type_in evt update_kinds = true ->
  Gui.hint_of evt = None ->
  Gui.handle e now "event" (JObj evt) s = (Raise AttributeError, s) /\
  Ws.handle_event e now (JObj evt) s' = (Raise AttributeError, s').
Proof.
  intros Hkind Hhint. split.
  - rewrite (gui_handle_branch e now evt Gui.Update s).
    + unfold Gui.handle_update, Gui.hint_of in *.
      destruct (Gui.update_props evt); try discriminate; reflexivity.
    + apply (ws_kind_is_gui_kind evt update_kinds); [auto|exact Hkind].
  - rewrite (ws_handle_is_update e now evt s' Hkind).
    unfold Ws.handle_update. unfold Gui.hint_of, Gui.update_props in Hhint.
    unfold Ws.update_props.
    destruct (por (por (dict_get evt "properties") (dict_get evt "data")) (JObj []));
      try discriminate; reflexivity.
Qed.

Lemma update_with_unreadable_properties_text :
  Gui.handle Sample.cfg60 0 "event"
    (JObj [("type", JStr "device"); ("device_sn", JStr "S1"); ("properties", JStr "on")])
    Gui.init = (Raise AttributeError, Gui.init) /\
  Ws.handle_event Sample.cfg60 0
    (JObj [("type", JStr "device"); ("device_sn", JStr "S1"); ("properties", JStr "on")])
    Ws.init = (Raise AttributeError, Ws.init).
Proof.
  apply (update_with_unreadable_properties Sample.cfg60 0
           [("type", JStr "device"); ("device_sn", JStr "S1"); ("properties", JStr "on")]
           Gui.init Ws.init); reflexivity.
Defined.

(** X13.  A single-device message whose serial is a list or a dict cannot
    be filed: the headless program raises [TypeError] on it, and so does the
    desktop program unless the serial is empty, in which case it takes the
    message to have no serial and does nothing.  Neither changes its state
    or makes a call. *)
Theorem update_with_unhashable_serial e now evt h (s : Gui.state) (s' : Ws.state) :
  Ws.type_in evt update_kinds = true ->
  Gui.hint_of evt = Some h ->
  to_key (Gui.update_serial evt) = None ->
  Gui.handle e now "event" (JObj evt) s =
    (if truthy (Gui.update_serial evt) then Raise TypeError else Ok tt, s) /\
  Ws.handle_event e now (JObj evt) s' = (Raise TypeError, s').
Proof.
  intros Hkind Hhint Hkey. split.
  - rewrite (gui_handle_branch e now evt Gui.Update s).
    + unfold Gui.handle_update, Gui.maybe_flag_offline, Gui.hint_of in *.
      destruct (Gui.update_props evt); try discriminate. run_py. rewrite Hkey.
      destruct (truthy (Gui.update_serial evt)); reflexivity.
    + apply (ws_kind_is_gui_kind evt update_kinds); [auto|exact Hkind].
  - rewrite (ws_handle_is_update e now evt s' Hkind).
    unfold Ws.handle_update. unfold Gui.hint_of, Gui.update_props in Hhint.
    unfold Ws.update_props. change (Ws.update_serial evt) with (Gui.update_serial evt).
    destruct (por (por (dict_get evt "properties") (dict_get evt "data")) (JObj []));
      try discriminate. run_py. rewrite Hkey. reflexivity.
Qed.

Lemma update_with_unhashable_serial_list :
  Gui.handle Sample.cfg60 0 "event"
    (JObj [("type", JStr "device"); ("device_sn", JArr [JStr "S1"])]) Gui.init =
    (if truthy (Gui.update_serial [("type", JStr "device"); ("device_sn", JArr [JStr "S1"])])
     then Raise TypeError else Ok tt, Gui.init) /\
  Ws.handle_event Sample.cfg60 0
    (JObj [("type", JStr "device"); ("device_sn", JArr [JStr "S1"])]) Ws.init
    = (Raise TypeError, Ws.init).
Proof.
  apply (update_with_unhashable_serial Sample.cfg60 0
           [("type", JStr "device"); ("device_sn", JArr [JStr "S1"])] false
           Gui.init Ws.init); reflexivity.
Defined.

(** ** The headless program: last-seen times and the offline record *)

#[local] Instance ws_same_seen_refl : Reflexive Track.ws_same_seen.
Proof. intros s. reflexivity. Qed.

#[local] Instance ws_same_seen_trans : Transitive Track.ws_same_seen.
Proof. intros a b c H1 H2. unfold Track.ws_same_seen in *. congruence. Qed.

Lemma ws_alert_same_seen e now evt : steps Track.ws_same_seen (Ws.handle_alert e now evt).
Proof.
  unfold Ws.handle_alert, Ws.alert_text, Ws.log_add, Ws.emit, as_dict.
  walk ltac:(intros [oks o]; reflexivity).
Qed.

Lemma ws_error_same_seen e now evt : steps Track.ws_same_seen (Ws.handle_error e now evt).
Proof.
  unfold Ws.handle_error, Ws.log_add, Ws.emit.
  walk ltac:(intros [oks o]; reflexivity).
Qed.

(** A true hint only refreshes the last-seen time. *)
Lemma ws_update_positive e now evt k (s : Ws.state) :
  to_key (Ws.update_serial evt) = Some k ->
  Ws.hint_of evt = Some true ->
  Ws.handle_update e now evt s =
    (Ok tt, Ws.State (<[k := now]> (Ws.device_last_ok s)) (Ws.out s)).
Proof.
  intros Hk Hh. unfold Ws.handle_update, Ws.hint_of in *.
  destruct (Ws.update_props evt) as [| | | | |props]; try discriminate.
  injection Hh as Hh. destruct s as [oks o]. run_py. rewrite Hh, Hk. reflexivity.
Qed.

(** X14.  In the headless program only a single-device message with a
    true online hint changes the last-seen times, and it sets the one of
    its serial to [now]; alerts, errors, false hints, unrecognised and
    malformed messages leave them all as they are. *)
Theorem ws_only_true_hints_refresh e now payload (s : Ws.state) :
  Ws.device_last_ok (snd (Ws.handle_event e now payload s)) = Ws.device_last_ok s \/
  exists evt k,
    payload = JObj evt /\ Ws.device_update evt k true /\
    Ws.handle_event e now payload s =
      (Ok tt, Ws.State (<[k := now]> (Ws.device_last_ok s)) (Ws.out s)).
Proof.
  destruct payload as [| | | | |evt]; try (left; reflexivity).
  destruct (Ws.type_in evt update_kinds) eqn:Hu.
  - rewrite (ws_handle_is_update e now evt s Hu).
    destruct (Ws.hint_of evt) as [[|]|] eqn:Hh.
    + destruct (to_key (Ws.update_serial evt)) as [k|] eqn:Hk.
      * right. exists evt, k. split; [reflexivity|]. split; [repeat split; assumption|].
        apply ws_update_positive; assumption.
      * left. unfold Ws.handle_update, Ws.hint_of in *.
        destruct (Ws.update_props evt); try discriminate. run_py. rewrite Hk. reflexivity.
    + left. destruct (to_key (Ws.update_serial evt)) as [k|] eqn:Hk.
      * rewrite (ws_update_negative e now evt k s Hk Hh). cbv zeta.
        match goal with |- context [(?a >? ?b)%Z] => destruct (a >? b)%Z end; reflexivity.
      * unfold Ws.handle_update, Ws.hint_of in *.
        destruct (Ws.update_props evt); try discriminate. run_py. rewrite Hk. reflexivity.
    + left. unfold Ws.handle_update, Ws.hint_of in *.
      destruct (Ws.update_props evt); try discriminate; reflexivity.
  - left. unfold Ws.handle_event. run_py. rewrite Hu.
    destruct (Ws.type_in evt alert_kinds) eqn:Ha.
    + destruct (ws_type_in_alert evt Ha) as [_ He]. rewrite He.
      pose proof (ws_alert_same_seen e now evt s) as H. unfold Track.ws_same_seen in H.
      run_py. destruct (Ws.handle_alert e now evt s) as [[[]|x] s1]; exact H.
    + run_py. destruct (Ws.type_in evt error_kinds).
      * apply (ws_error_same_seen e now evt s).
      * reflexivity.
Qed.

(** X15.  The headless program does not remember that it reported a device
    offline: a false hint for a stale device asks for the notification and
    writes the "Device offline" record every time, so two such messages in a
    row leave two records. *)
Theorem ws_offline_recorded_every_time e now now' evt k (s : Ws.state) :
  Ws.device_update evt k false ->
  Track.ws_stale e now s k ->
  (now <= now')%Z ->
  Ws.out (snd (Ws.handle_event e now' (JObj evt)
                 (snd (Ws.handle_event e now (JObj evt) s)))) =
    Ws.out s ++ [Ws.offline_show evt; LogAdd (Ws.offline_row now evt);
                 Ws.offline_show evt; LogAdd (Ws.offline_row now' evt)].
Proof.
  intros (Hu & Hk & Hh) Hstale Hle. unfold Track.ws_stale in Hstale.
  rewrite !(ws_handle_is_update _ _ _ _ Hu).
  rewrite (ws_update_negative e now evt k s Hk Hh). cbv zeta.
  match goal with |- context [(?a >? ?b)%Z] => destruct (a >? b)%Z eqn:H1 end; [|lia].
  cbn [snd]. rewrite (ws_update_negative e now' evt k _ Hk Hh). cbv zeta.
  cbn [Ws.device_last_ok Ws.out].
  match goal with |- context [(?a >? ?b)%Z] => destruct (a >? b)%Z eqn:H2 end.
  - cbn [snd Ws.out]. rewrite <- app_assoc. reflexivity.
  - exfalso. destruct (Ws.device_last_ok s !! k); unfold Ws.day in *; lia.
Qed.

Lemma ws_offline_recorded_every_time_cam :
  Ws.out (snd (Ws.handle_event Sample.cfg60 1100 (JObj (Sample.update "S1" false))
                 (snd (Ws.handle_event Sample.cfg60 1061 (JObj (Sample.update "S1" false))
                         (Sample.ws_cam 1000))))) =
    Ws.out (Sample.ws_cam 1000) ++
      [Ws.offline_show (Sample.update "S1" false);
       LogAdd (Ws.offline_row 1061 (Sample.update "S1" false));
       Ws.offline_show (Sample.update "S1" false);
       LogAdd (Ws.offline_row 1100 (Sample.update "S1" false))].
Proof.
  apply (ws_offline_recorded_every_time Sample.cfg60 1061 1100 (Sample.update "S1" false)
           (KStr "S1") (Sample.ws_cam 1000)).
  - repeat split; reflexivity.
  - vm_compute. reflexivity.
  - lia.
Defined.

(** X16.  In the headless program a true hint at [seen] followed by a
    false hint at [now] for the same serial reports the device offline
    exactly when more than the grace period lies between them; the true
    hint itself calls nothing. *)
Theorem ws_offline_after_last_true_hint e seen now evt evt' k (s : Ws.state) :
  Ws.device_update evt k true ->
  Ws.device_update evt' k false ->
  exists s1,
    Ws.handle_event e seen (JObj evt) s = (Ok tt, s1) /\
    Ws.out s1 = Ws.out s /\
    Ws.handle_event e now (JObj evt') s1 =
      if (now - seen >? offline_grace_seconds e)%Z then
        (if log_accepts e (Ws.offline_row now evt') then Ok tt else Raise DatabaseError,
         Ws.State (Ws.device_last_ok s1)
                  (Ws.out s ++ [Ws.offline_show evt'; LogAdd (Ws.offline_row now evt')]))
      else (Ok tt, s1).
Proof.
  intros (Hu & Hk & Hh) (Hu' & Hk' & Hh').
  eexists. split; [|split].
  - rewrite (ws_handle_is_update _ _ _ _ Hu). apply (ws_update_positive e seen evt k s Hk Hh).
  - reflexivity.
  - rewrite (ws_handle_is_update _ _ _ _ Hu'), (ws_update_negative e now evt' k _ Hk' Hh').
    cbn [Ws.device_last_ok Ws.out]. rewrite lookup_insert_eq. reflexivity.
Qed.

Lemma ws_offline_after_last_true_hint_cam :
  exists s1,
    Ws.handle_event Sample.cfg60 1000 (JObj (Sample.update "S1" true)) Ws.init = (Ok tt, s1) /\
    Ws.out s1 = Ws.out Ws.init /\
    Ws.handle_event Sample.cfg60 1061 (JObj (Sample.update "S1" false)) s1 =
      if (1061 - 1000 >? offline_grace_seconds Sample.cfg60)%Z then
        (if log_accepts Sample.cfg60 (Ws.offline_row 1061 (Sample.update "S1" false))
         then Ok tt else Raise DatabaseError,
         Ws.State (Ws.device_last_ok s1)
                  (Ws.out Ws.init ++
                   [Ws.offline_show (Sample.update "S1" false);
                    LogAdd (Ws.offline_row 1061 (Sample.update "S1" false))]))
      else (Ok tt, s1).
Proof.
  apply (ws_offline_after_last_true_hint Sample.cfg60 1000 1061
           (Sample.update "S1" true) (Sample.update "S1" false) (KStr "S1") Ws.init);
    repeat split; reflexivity.
Defined.

(** ** The alert gate over several calls *)

Lemma show_cooldown n now title msg key :
  Notifier.cooldown (snd (Notifier.show n now title msg key)) = Notifier.cooldown n.
Proof.
  unfold Notifier.show. destruct (Notifier.key_given key) as [k|]; [|reflexivity].
  destruct (Notifier.last n !! k) as [t|]; [|reflexivity].
  destruct (now - t <? Notifier.cooldown n)%Z; reflexivity.
Qed.

Lemma spaced_cons gap a b l :
  Gate.spaced gap (a :: b :: l) <-> (gap <= b - a)%Z /\ Gate.spaced gap (b :: l).
Proof. reflexivity. Qed.

(** X17.  Two notifications with the same non-empty key are never closer
    than the cooldown: in any run of calls of [show] with that key, at
    whatever times, the times of the calls that notify, preceded by the time
    recorded for the key if there is one, are pairwise at least the cooldown
    apart. *)
Theorem gate_notifications_spaced (n : Notifier.t) title msg k times :
  k <> "" ->
  Gate.spaced (Notifier.cooldown n)
    (match Notifier.last n !! k with
     | Some t0 => t0 :: fst (Gate.fired_at n title msg (Some k) times)
     | None => fst (Gate.fired_at n title msg (Some k) times)
     end).
Proof.
  intros Hk.
  assert (Hgiven : Notifier.key_given (Some k) = Some k).
  { unfold Notifier.key_given. destruct (String.eqb_spec k ""); [contradiction|reflexivity]. }
  revert n. induction times as [|now rest IH]; intros n.
  - cbn [Gate.fired_at fst]. destruct (Notifier.last n !! k); exact I.
  - cbn [Gate.fired_at].
    pose proof (IH (snd (Notifier.show n now title msg (Some k)))) as IHn.
    rewrite show_cooldown in IHn.
    destruct (Gate.fired_at (snd (Notifier.show n now title msg (Some k))) title msg
                (Some k) rest) as [later n'] eqn:Hrest.
    cbn [fst] in *. unfold Notifier.fired, Notifier.show in *. rewrite Hgiven in *.
    destruct (Notifier.last n !! k) as [t0|] eqn:Hlast.
    + destruct (now - t0 <? Notifier.cooldown n)%Z eqn:Hcmp; cbn [fst snd] in *.
      * rewrite Hlast in IHn. exact IHn.
      * cbn [Notifier.last] in IHn. rewrite lookup_insert_eq in IHn.
        apply spaced_cons. split; [apply Z.ltb_ge in Hcmp; lia|exact IHn].
    + cbn [fst snd Notifier.last] in *. rewrite lookup_insert_eq in IHn. exact IHn.
Qed.

Lemma gate_notifications_spaced_k :
  Gate.spaced (Notifier.cooldown (Notifier.init 90))
    (match Notifier.last (Notifier.init 90) !! "k" with
     | Some t0 => t0 :: fst (Gate.fired_at (Notifier.init 90) "t" "m" (Some "k") [0; 50; 95; 100; 200]%Z)
     | None => fst (Gate.fired_at (Notifier.init 90) "t" "m" (Some "k") [0; 50; 95; 100; 200]%Z)
     end).
Proof.
  apply (gate_notifications_spaced (Notifier.init 90) "t" "m" "k" [0; 50; 95; 100; 200]%Z).
  discriminate.
Defined.

(** X18.  The decisions for one key do not depend on the calls made with
    other keys or without key: such a call, whether it notifies or not,
    leaves the time recorded for the key and the cooldown as they are, so a
    call with the key is answered as if the other had not been made. *)
Theorem gate_keys_independent (n : Notifier.t) now now' title title' msg msg' key' k :
  Notifier.key_given key' <> Some k ->
  Notifier.last (snd (Notifier.show n now' title' msg' key')) !! k = Notifier.last n !! k /\
  fst (Notifier.show (snd (Notifier.show n now' title' msg' key')) now title msg (Some k))
    = fst (Notifier.show n now title msg (Some k)).
Proof.
  intros Hother.
  assert (Hlast : Notifier.last (snd (Notifier.show n now' title' msg' key')) !! k
                  = Notifier.last n !! k).
  { unfold Notifier.show. destruct (Notifier.key_given key') as [k0|]; [|reflexivity].
    assert (k0 <> k) by congruence.
    destruct (Notifier.last n !! k0) as [t|];
      [destruct (now' - t <? Notifier.cooldown n)%Z|];
      cbn [snd Notifier.last]; rewrite ?lookup_insert_ne by assumption; reflexivity. }
  split; [exact Hlast|].
  unfold Notifier.show at 1 3. destruct (Notifier.key_given (Some k)) as [k1|] eqn:Hk1.
  - assert (k1 = k) as ->.
    { unfold Notifier.key_given in Hk1. destruct (String.eqb k ""); congruence. }
    rewrite Hlast, show_cooldown.
    destruct (Notifier.last n !! k) as [t|]; [|reflexivity].
    destruct (now - t <? Notifier.cooldown n)%Z; reflexivity.
  - reflexivity.
Qed.

Lemma gate_keys_independent_off_rec :
  Notifier.last (snd (Notifier.show (Notifier.init 90) 10 "a" "b" (Some "rec_S1"))) !! "off_S1"
    = Notifier.last (Notifier.init 90) !! "off_S1" /\
  fst (Notifier.show (snd (Notifier.show (Notifier.init 90) 10 "a" "b" (Some "rec_S1")))
         20 "t" "m" (Some "off_S1"))
    = fst (Notifier.show (Notifier.init 90) 20 "t" "m" (Some "off_S1")).
Proof.
  apply (gate_keys_independent (Notifier.init 90) 20 10 "t" "a" "m" "b"
           (Some "rec_S1") "off_S1").
  vm_compute. discriminate.
Defined.

(** ** The transports over a whole run *)

Lemma gui_events_app l1 l2 :
  Wire.gui_events (l1 ++ l2) = Wire.gui_events l1 ++ Wire.gui_events l2.
Proof.
  induction l1 as [|[| |kind payload|] l1 IH]; cbn [app Wire.gui_events]; try exact IH.
  - reflexivity.
  - destruct (String.eqb kind "event"); cbn [app]; rewrite IH; reflexivity.
Qed.

Lemma gui_events_received frames :
  Wire.gui_events (concat (map Gui.receive frames)) = Wire.parsed frames.
Proof.
  induction frames as [|[evt|] frames IH]; cbn; [reflexivity| |exact IH].
  rewrite IH. reflexivity.
Qed.

(** X19.  Over a whole run of the desktop transport, the events put on the
    queue are exactly the frames that parse as JSON on the connections that
    got through the handshake, in the order received; frames that do not
    parse are dropped without a trace, and refused or half-opened
    connections deliver nothing. *)
Theorem gui_run_delivers_parsed_frames sessions :
  Wire.gui_events (Gui.run sessions) = concat (map Wire.gui_received sessions).
Proof.
  unfold Gui.run. induction sessions as [|s sessions IH]; [reflexivity|].
  cbn [map concat]. rewrite gui_events_app, IH. f_equal.
  destruct s as [error|sent error|frames ending].
  - reflexivity.
  - destruct sent as [|[|[|sent]]]; reflexivity.
  - cbn [Gui.run_session Wire.gui_received Gui.handshake map app Wire.gui_events].
    cbn [String.eqb Ascii.eqb Bool.eqb]. rewrite gui_events_app, gui_events_received.
    destruct ending; cbn; rewrite app_nil_r; reflexivity.
Qed.

Lemma gui_sleeps_app l1 l2 :
  Wire.gui_sleeps (l1 ++ l2) = Wire.gui_sleeps l1 ++ Wire.gui_sleeps l2.
Proof.
  induction l1 as [|[| | |n] l1 IH]; cbn [app Wire.gui_sleeps]; try exact IH.
  - reflexivity.
  - rewrite IH. reflexivity.
Qed.

Lemma gui_sleeps_received frames : Wire.gui_sleeps (concat (map Gui.receive frames)) = [].
Proof. induction frames as [|[evt|] frames IH]; cbn; [reflexivity|exact IH|exact IH]. Qed.

Lemma ws_sleeps_app l1 l2 :
  Wire.ws_sleeps (l1 ++ l2) = Wire.ws_sleeps l1 ++ Wire.ws_sleeps l2.
Proof.
  induction l1 as [|[| | |n] l1 IH]; cbn [app Wire.ws_sleeps]; try exact IH.
  - reflexivity.
  - rewrite IH. reflexivity.
Qed.

Lemma ws_sleeps_listen frames fails :
  Wire.ws_sleeps (Ws.listen frames fails)
    = if fails || existsb Wire.raises frames then [5%Z] else [].
Proof.
  induction frames as [|[|evt [|]] frames IH]; cbn [Ws.listen existsb Wire.raises].
  - rewrite orb_false_r. destruct fails; reflexivity.
  - cbn [orb]. exact IH.
  - cbn [orb Wire.ws_sleeps]. exact IH.
  - rewrite orb_true_r. reflexivity.
Qed.

(** X20.  Both transports pause for 5 seconds after every turn of the loop
    that ends in an exception and never otherwise: the pauses of a run are
    as many fives as there are failed turns, so that a connection closed
    without exception is followed at once by the next attempt, and the
    pause does not grow. *)
Theorem transports_pause_five_after_failure sessions ws_sessions :
  Wire.gui_sleeps (Gui.run sessions)
    = List.repeat 5%Z (length (List.filter Wire.gui_failed sessions)) /\
  Wire.ws_sleeps (Ws.run ws_sessions)
    = List.repeat 5%Z (length (List.filter Wire.ws_failed ws_sessions)).
Proof.
  split.
  - unfold Gui.run. induction sessions as [|s sessions IH]; [reflexivity|].
    cbn [map concat List.filter]. rewrite gui_sleeps_app, IH.
    destruct s as [error|sent error|frames [error|]].
    + reflexivity.
    + destruct sent as [|[|[|sent]]]; reflexivity.
    + cbn [Gui.run_session Wire.gui_failed Gui.handshake map app Wire.gui_sleeps].
      rewrite gui_sleeps_app, gui_sleeps_received. reflexivity.
    + cbn [Gui.run_session Wire.gui_failed Gui.handshake map app Wire.gui_sleeps].
      rewrite gui_sleeps_app, gui_sleeps_received. reflexivity.
  - unfold Ws.run. induction ws_sessions as [|s ws_sessions IH]; [reflexivity|].
    cbn [map concat List.filter]. rewrite ws_sleeps_app, IH.
    destruct s as [|sent|frames fails].
    + reflexivity.
    + destruct sent as [|[|[|sent]]]; reflexivity.
    + cbn [Ws.run_session Wire.ws_failed Ws.handshake map app Wire.ws_sleeps].
      rewrite ws_sleeps_listen.
      destruct (fails || existsb Wire.raises frames); reflexivity.
Qed.

(** In the headless transport an exception of the callback ends the
    connection: whatever was received after the message that made it raise
    is never passed on, and the pause follows, as if the stream had ended
    there. *)
Lemma ws_listen_stops_at_exception before evt after fails fails' :
  Ws.listen (before ++ Ws.Message evt false :: after) fails
    = Ws.listen (before ++ [Ws.Message evt false]) fails'.
Proof.
  induction before as [|[|evt0 [|]] before IH]; cbn [app Ws.listen].
  - reflexivity.
  - exact IH.
  - rewrite IH. reflexivity.
  - reflexivity.
Qed.

(** X21.  With [handle_event] as the callback: a frame that parses as JSON
    but is not an object makes the handler raise at once, so the headless
    client drops the connection and pauses, leaving its state as it was and
    the frames received after it unhandled. *)
Theorem ws_non_object_frame_drops_connection e now v rest fails (s : Ws.state) :
  (forall fields, v <> JObj fields) ->
  Serve.listen e ((now, Some v) :: rest) fails s = ([Ws.OnEvent v; Ws.Sleep 5], s).
Proof.
  intros Hv. cbn [Serve.listen].
  destruct v as [| | | | |fields]; try reflexivity.
  exfalso. apply (Hv fields). reflexivity.
Qed.

Lemma ws_non_object_frame_drops_connection_number :
  Serve.listen Sample.cfg60 [(10%Z, Some (JNum 42)); (11%Z, Some (JObj (Sample.update "S1" true)))]
    false Ws.init = ([Ws.OnEvent (JNum 42); Ws.Sleep 5], Ws.init).
Proof.
  apply (ws_non_object_frame_drops_connection Sample.cfg60 10 (JNum 42)
           [(11%Z, Some (JObj (Sample.update "S1" true)))] false Ws.init).
  discriminate.
Defined.

(** ** The window and the queue *)

Lemma queued_app l1 l2 : Wire.queued (l1 ++ l2) = Wire.queued l1 ++ Wire.queued l2.
Proof.
  induction l1 as [|[| |kind payload|] l1 IH]; cbn [app Wire.queued]; try exact IH.
  - reflexivity.
  - rewrite IH. reflexivity.
Qed.

Lemma queued_run_from_transport sessions :
  forallb App.from_transport (Wire.queued (Gui.run sessions)) = true.
Proof.
  unfold Gui.run. induction sessions as [|s sessions IH]; [reflexivity|].
  cbn [map concat]. rewrite queued_app, forallb_app, IH, andb_true_r.
  destruct s as [error|sent error|frames ending].
  - reflexivity.
  - destruct sent as [|[|[|sent]]]; reflexivity.
  - cbn [Gui.run_session Gui.handshake map app Wire.queued forallb App.from_transport].
    cbn [String.eqb Ascii.eqb Bool.eqb orb andb]. rewrite queued_app, forallb_app.
    apply andb_true_intro. split.
    + induction frames as [|[evt|] frames IHf]; cbn; [reflexivity|exact IHf|exact IHf].
    + destruct ending; reflexivity.
Qed.

Lemma drain_from_transport items :
  forallb App.from_transport items = true ->
  exists calls, App.drain items = (calls, Ok tt) /\ forallb App.on_status calls = true.
Proof.
  induction items as [|[kind payload] items IH]; intros Hall.
  - exists []. split; reflexivity.
  - cbn [forallb] in Hall. apply andb_prop in Hall. destruct Hall as [Hitem Hrest].
    destruct (IH Hrest) as (later & Hdrain & Hlater).
    cbn [App.drain]. unfold App.from_transport in Hitem. unfold App.poll_item.
    destruct (String.eqb kind "conn") eqn:Hconn.
    + apply String.eqb_eq in Hconn. subst kind. cbn in Hitem.
      destruct payload as [| | | | |p]; try discriminate.
      destruct (in_strs (dict_get p "status") ["connected"]); rewrite Hdrain;
        eexists; (split; [reflexivity|]); cbn [app forallb App.on_status andb]; exact Hlater.
    + rewrite andb_false_l, orb_false_r in Hitem. apply String.eqb_eq in Hitem. subst kind.
      cbn [String.eqb Ascii.eqb Bool.eqb]. rewrite Hdrain.
      exists later. split; [reflexivity|exact Hlater].
Qed.

(** X22.  Whatever the transport has put on the queue, [_poll_queue] only
    ever sets the status line and the two buttons and schedules itself
    again: it does not raise, and the received events, which it takes off
    the queue, never reach the device table or the log box (nor
    [MonitorLogic.handle], which it does not call). *)
Theorem poll_queue_ignores_events sessions before items after :
  Wire.queued (Gui.run sessions) = before ++ items ++ after ->
  exists calls,
    App.poll_queue items = (calls ++ [App.After 150], Ok tt) /\
    forallb App.on_status calls = true.
Proof.
  intros Hqueue. pose proof (queued_run_from_transport sessions) as Hall.
  rewrite Hqueue, !forallb_app in Hall.
  apply andb_prop in Hall. destruct Hall as [_ Hall].
  apply andb_prop in Hall. destruct Hall as [Hitems _].
  destruct (drain_from_transport items Hitems) as (calls & Hdrain & Hcalls).
  exists calls. unfold App.poll_queue. rewrite Hdrain. split; [reflexivity|exact Hcalls].
Qed.

Lemma poll_queue_ignores_events_one :
  exists calls,
    App.poll_queue [("conn", JObj [("status", JStr "connected")]);
                    ("event", JObj (Sample.update "S1" true))]
      = (calls ++ [App.After 150], Ok tt) /\
    forallb App.on_status calls = true.
Proof.
  apply (poll_queue_ignores_events
           [Gui.Established [Some (JObj (Sample.update "S1" true))] None]
           [] [("conn", JObj [("status", JStr "connected")]);
               ("event", JObj (Sample.update "S1" true))] []).
  reflexivity.
Defined.

(** ** A device first heard of through an alert *)


